(** * auto_backup_s3: the S3 mirror of the backup folder

    A shallow embedding of [auto_backup_s3/models/db_backup.py] (the
    [DbBackup] model extension) and the properties of its reconciliation
    cycle.  The Python methods are embedded as functions of a small
    state-and-exception monad; the collaborators the module calls but does
    not define ([os], [boto3], the logger, the ORM) are modelled next to it,
    with an explicit oracle for the failures they can raise. *)

From Stdlib Require Import Ascii String.
From stdpp Require Import gmap strings list sorting pretty.

Open Scope string_scope.
Open Scope list_scope.

(** ** Python strings *)

Module Py.

(** [s.split(sep)] for a one-character separator: never the empty list. *)
Fixpoint split (sep : ascii) (s : string) : list string :=
  match s with
  | EmptyString => [EmptyString]
  | String c s' =>
      if Ascii.eqb c sep then EmptyString :: split sep s'
      else match split sep s' with
           | [] => [String c EmptyString]
           | h :: t => String c h :: t
           end
  end.

(** [l[-1]]: the last item, [None] where Python raises [IndexError]. *)
Definition item_neg1 (l : list string) : option string := last l.

(** [c.isspace()] on the ASCII range. *)
Definition isspace (c : ascii) : bool :=
  let n := nat_of_ascii c in
  (Nat.leb 9 n && Nat.leb n 13) || (Nat.leb 28 n && Nat.leb n 32).

Fixpoint lstrip (s : string) : string :=
  match s with
  | EmptyString => EmptyString
  | String c s' => if isspace c then lstrip s' else s
  end.

Definition rstrip (s : string) : string :=
  String.rev (lstrip (String.rev s)).

(** [s.strip()] *)
Definition strip (s : string) : string := rstrip (lstrip s).

(** [c in s] for a character. *)
Fixpoint contains (c : ascii) (s : string) : bool :=
  match s with
  | EmptyString => false
  | String d s' => Ascii.eqb d c || contains c s'
  end.

(** [s.endswith(c)] for a character. *)
Fixpoint endswith (c : ascii) (s : string) : bool :=
  match s with
  | EmptyString => false
  | String d EmptyString => Ascii.eqb d c
  | String _ s' => endswith c s'
  end.

(** [s.startswith(p)] *)
Definition startswith (p s : string) : bool := String.prefix p s.

(** [p[p.rfind(sep) + 1:]]: what follows the last [sep] of [p], the whole
    of [p] when there is none. *)
Fixpoint after_rfind (sep : ascii) (p : string) : string :=
  match p with
  | EmptyString => EmptyString
  | String c p' =>
      if contains sep p then after_rfind sep p' else p
  end.

(** [posixpath.basename] *)
Definition os_path_basename (p : string) : string := after_rfind "/"%char p.

(** [posixpath.join] of two components. *)
Definition os_path_join (a b : string) : string :=
  if startswith "/" b then b
  else if String.eqb a "" || endswith "/"%char a then a +:+ b
  else a +:+ "/" +:+ b.

(** ["%s" % v] for a [Char] field, which reads [False] when it is unset. *)
Definition fmt (v : option string) : string :=
  match v with
  | Some s => s
  | None => "False"
  end.

End Py.

(** ** Exceptions *)

Inductive exn_class :=
| Exception
| OSError | FileNotFoundError | PermissionError | NotADirectoryError
| AttributeError | TypeError | ValueError
| BotoCoreError | NoCredentialsError | EndpointConnectionError
| ParamValidationError
| ClientError
| Boto3Error | S3UploadFailedError
| UserError.

Global Instance exn_class_eq_dec : EqDecision exn_class.
Proof. solve_decision. Defined.

(** The direct base class; [Exception] is the root of everything the model
    raises. *)
Definition base_class (c : exn_class) : option exn_class :=
  match c with
  | Exception => None
  | FileNotFoundError | PermissionError | NotADirectoryError => Some OSError
  | NoCredentialsError | EndpointConnectionError | ParamValidationError =>
      Some BotoCoreError
  | S3UploadFailedError => Some Boto3Error
  | OSError | AttributeError | TypeError | ValueError
  | BotoCoreError | ClientError | Boto3Error | UserError => Some Exception
  end.

Fixpoint issubclass_fuel (n : nat) (c d : exn_class) : bool :=
  bool_decide (c = d) ||
  match n, base_class c with
  | S n', Some b => issubclass_fuel n' b d
  | _, _ => false
  end.

(** The hierarchy is three levels deep. *)
Definition issubclass (c d : exn_class) : bool := issubclass_fuel 3 c d.

Record exn := Exn { exn_cls : exn_class; exn_msg : string }.

Global Instance exn_eq_dec : EqDecision exn.
Proof. solve_decision. Defined.

Definition isinstance (e : exn) (c : exn_class) : bool :=
  issubclass (exn_cls e) c.

(** [str(e)] *)
Definition str (e : exn) : string := exn_msg e.

Inductive result (A : Type) :=
| Ok (a : A)
| Raise (e : exn).
Arguments Ok {A} a.
Arguments Raise {A} e.

Definition outcome {A} (r : result A) : option exn :=
  match r with
  | Ok _ => None
  | Raise e => Some e
  end.

(** ** Records, responses and the observable trace *)

(** A [db.backup] record, with the columns the module reads.  A [Char]
    column that is unset reads [False]: [None] here.  [folder] belongs to
    the inherited model, which gives it a default. *)
Record db_backup := {
  folder : string;
  s3_write : bool;
  s3_bucket_name : option string;
  s3_access_key : option string;
  s3_secret_key : option string;
  s3_region : option string;
  s3_folder_name : option string;
}.

(** An entry of a listing response; only ['Key'] is read. *)
Record s3_object := { Key : string }.

Global Instance s3_object_eq_dec : EqDecision s3_object.
Proof. solve_decision. Defined.

(** The response of one [list_objects_v2] call: ['Contents'] is absent when
    no key matches, [IsTruncated] tells that further pages exist. *)
Record list_response := {
  Contents : option (list s3_object);
  IsTruncated : bool;
}.

(** The handle [boto3.client('s3', ...)] returns. *)
Record s3_client := {
  aws_access_key_id : option string;
  aws_secret_access_key : option string;
  region_name : option string;
}.

Inductive log_level := INFO | ERROR.

(** What a run does to the outside, in order.  A call to a collaborator
    carries the exception it raised, if any. *)
Inductive event :=
| EvListdir (path : string) (raised : option exn)
| EvClient (access secret region : option string) (raised : option exn)
| EvListObjects (bucket prefix : option string) (raised : option exn)
| EvUploadFile (path : string) (bucket : option string) (key : string)
    (raised : option exn)
| EvDeleteObject (bucket : option string) (key : string)
    (raised : option exn)
| EvLog (level : log_level) (msg : string).

(** The action [action_test_s3_connection] returns. *)
Record notification := {
  n_type : string;
  n_tag : string;
  n_title : string;
  n_message : string;
  n_msg_type : string;
  n_sticky : bool;
}.

(** ** The state the calls act on *)

(** [records]: the stored [db.backup] records.  [store]: the keys of every
    existing bucket.  [faults]: what the next calls to boto3 raise, one
    entry a call ([None]: the call goes through); past its end no fault is
    injected. *)
Record State := {
  records : list db_backup;
  store : gmap string (gset string);
  faults : list (option exn);
}.

Definition set_store (f : gmap string (gset string) → gmap string (gset string))
    (s : State) : State :=
  {| records := records s; store := f (store s); faults := faults s |}.

Definition set_faults (fs : list (option exn)) (s : State) : State :=
  {| records := records s; store := store s; faults := fs |}.

(** ** The monad: state, the events emitted, and exceptions that keep both *)

Definition M (A : Type) : Type := State → result A * State * list event.

Definition ret {A} (a : A) : M A := fun s => (Ok a, s, []).

Definition raise {A} (e : exn) : M A := fun s => (Raise e, s, []).

Definition bind {A B} (m : M A) (k : A → M B) : M B :=
  fun s =>
    match m s with
    | (Ok a, s1, t1) => let '(r, s2, t2) := k a s1 in (r, s2, t1 ++ t2)
    | (Raise e, s1, t1) => (Raise e, s1, t1)
    end.

Declare Scope py_scope.
Delimit Scope py_scope with py.
Notation "x <- m ;; k" := (bind m (fun x => k))
  (at level 100, m at next level, right associativity) : py_scope.
Notation "m ;; k" := (bind m (fun _ => k))
  (at level 100, right associativity) : py_scope.
Open Scope py_scope.

(** [try: m  except <classes> as e: handler e] *)
Definition try_except {A} (m : M A) (catches : exn → bool)
    (handler : exn → M A) : M A :=
  fun s =>
    match m s with
    | (Ok a, s1, t1) => (Ok a, s1, t1)
    | (Raise e, s1, t1) =>
        if catches e then
          let '(r, s2, t2) := handler e s1 in (r, s2, t1 ++ t2)
        else (Raise e, s1, t1)
    end.

(** [for x in l: body x] *)
Fixpoint for_each {A} (l : list A) (body : A → M unit) : M unit :=
  match l with
  | [] => ret tt
  | x :: l' => body x ;; for_each l' body
  end.

Definition emit (ev : event) : M unit := fun s => (Ok tt, s, [ev]).

Definition logger_info (msg : string) : M unit := emit (EvLog INFO msg).
Definition logger_error (msg : string) : M unit := emit (EvLog ERROR msg).

(** The fault the oracle holds for the call that starts now. *)
Definition pop_fault (s : State) : option exn * State :=
  match faults s with
  | [] => (None, s)
  | f :: fs => (f, set_faults fs s)
  end.

(** A call to boto3: it raises the injected fault, or else does [body]; the
    event records which. *)
Definition remote_call {A} (ev : option exn → event) (body : M A) : M A :=
  fun s =>
    let '(f, s1) := pop_fault s in
    match f with
    | Some e => (Raise e, s1, [ev (Some e)])
    | None => let '(r, s2, t) := body s1 in (r, s2, ev (outcome r) :: t)
    end.

(** ** The collaborators: [os], boto3, the ORM *)

(** What a run does not change.  [fs_listdir] and [fs_isfile] are the
    local file system as the sync loop finds it; [max_keys] is the page
    size of a listing (1000 for S3); [set_iter] is the order in which
    Python iterates a set, any order at all; [super_schedule_backup] is the
    inherited method. *)
Record Env := {
  fs_listdir : string → result (list string);
  fs_isfile : string → bool;
  max_keys : nat;
  set_iter : gset string → list string;
  set_iter_perm : ∀ X, set_iter X ≡ₚ elements X;
  super_schedule_backup : M unit;
}.

Section Code.

Context (env : Env).

(** [os.listdir(path)] *)
Definition os_listdir (path : string) : M (list string) :=
  fun s =>
    let r := fs_listdir env path in
    (r, s, [EvListdir path (outcome r)]).

(** [self.search([])] *)
Definition search_all : M (list db_backup) :=
  fun s => (Ok (records s), s, []).

(** [self.ensure_one()], giving the one record. *)
Definition ensure_one (self : list db_backup) : M db_backup :=
  match self with
  | [rec] => ret rec
  | _ => raise (Exn ValueError "Expected singleton")
  end.

(** [boto3.client('s3', aws_access_key_id=..., ...)] *)
Definition boto3_client (access secret region : option string) :
    M s3_client :=
  remote_call (EvClient access secret region)
    (ret {| aws_access_key_id := access;
            aws_secret_access_key := secret;
            region_name := region |}).

(** The keys of a bucket that start with [prefix], in the order the
    service lists them. *)
Definition matching_keys (prefix : option string) (keys : gset string) :
    list string :=
  merge_sort String.le
    (elements (filter (λ k, Is_true (Py.startswith (default "" prefix) k))
                      keys)).

(** [s3_client.list_objects_v2(Bucket=bucket, Prefix=prefix)]: one page. *)
Definition list_objects_v2 (c : s3_client) (bucket prefix : option string) :
    M list_response :=
  remote_call (EvListObjects bucket prefix)
    (match bucket with
     | None => raise (Exn ParamValidationError "Invalid bucket name")
     | Some b =>
         fun s =>
           match store s !! b with
           | None =>
               (Raise (Exn ClientError
                        "NoSuchBucket: the specified bucket does not exist"),
                s, [])
           | Some keys =>
               let found := matching_keys prefix keys in
               let page := take (max_keys env) found in
               (Ok {| Contents :=
                        match page with
                        | [] => None
                        | _ => Some ((λ k, {| Key := k |}) <$> page)
                        end;
                      IsTruncated :=
                        bool_decide (max_keys env < length found)%nat |},
                s, [])
           end
     end).

(** [s3_client.upload_file(path, bucket, key)] *)
Definition upload_file (c : s3_client) (path : string)
    (bucket : option string) (key : string) : M unit :=
  remote_call (EvUploadFile path bucket key)
    (if negb (fs_isfile env path) then
       raise (Exn FileNotFoundError "No such file or directory")
     else
       match bucket with
       | None => raise (Exn ParamValidationError "Invalid bucket name")
       | Some b =>
           fun s =>
             match store s !! b with
             | None =>
                 (Raise (Exn S3UploadFailedError
                          "Failed to upload: NoSuchBucket"), s, [])
             | Some keys =>
                 (Ok tt, set_store <[b := {[key]} ∪ keys]> s, [])
             end
       end).

(** [s3_client.delete_object(Bucket=bucket, Key=key)]: deleting a key that
    is not there succeeds. *)
Definition delete_object (c : s3_client) (bucket : option string)
    (key : string) : M unit :=
  remote_call (EvDeleteObject bucket key)
    (match bucket with
     | None => raise (Exn ParamValidationError "Invalid bucket name")
     | Some b =>
         fun s =>
           match store s !! b with
           | None =>
               (Raise (Exn ClientError
                        "NoSuchBucket: the specified bucket does not exist"),
                s, [])
           | Some keys =>
               (Ok tt, set_store <[b := keys ∖ {[key]}]> s, [])
           end
     end).

(** ** The methods of [DbBackup] *)

Definition upload_to_s3 (file_path : string) (bucket_name : option string)
    (s3_key : string) (access_key secret_key region : option string) :
    M unit :=
  try_except
    (s3_client <- boto3_client access_key secret_key region ;;
     upload_file s3_client file_path bucket_name s3_key ;;
     logger_info ("Successfully uploaded " +:+ file_path
                  +:+ " to S3 bucket " +:+ Py.fmt bucket_name))
    (λ e, isinstance e BotoCoreError || isinstance e NoCredentialsError)
    (λ e,
       logger_error ("Failed to upload backup to S3: " +:+ str e) ;;
       raise (Exn UserError ("Failed to upload backup to S3: " +:+ str e))).

Definition get_s3_client (access_key secret_key region : option string) :
    M s3_client :=
  boto3_client access_key secret_key region.

Definition list_s3_objects (s3_client : s3_client)
    (bucket_name : option string) (folder_prefix : string) :
    M (list s3_object) :=
  response <- list_objects_v2 s3_client bucket_name
                (Some (folder_prefix +:+ "/")) ;;
  ret (default [] (Contents response)).

Definition action_test_s3_connection (self : list db_backup) :
    M notification :=
  rec <- ensure_one self ;;
  shown <- try_except
    (s3_client <- get_s3_client (s3_access_key rec) (s3_secret_key rec)
                    (s3_region rec) ;;
     list_objects_v2 s3_client (s3_bucket_name rec) None ;;
     ret ("Connection Test Succeeded!",
          "Everything seems properly set up!",
          "success"))
    (λ err, isinstance err Exception)
    (λ err, ret ("Connection Test Failed!", str err, "danger")) ;;
  let '(title, message, msg_type) := shown in
  ret {| n_type := "ir.actions.client";
         n_tag := "display_notification";
         n_title := title;
         n_message := message;
         n_msg_type := msg_type;
         n_sticky := false |}.

(** [obj['Key'].split('/')[-1]]; the index is always in range, a split
    has at least one item. *)
Definition key_name (obj : s3_object) : string :=
  default "" (Py.item_neg1 (Py.split "/" (Key obj))).

(** The set comprehension over a directory listing:
    [{os.path.basename(f) for f in names
      if os.path.isfile(os.path.join(folder_path, f))}] *)
Definition local_file_set (folder_path : string) (names : list string) :
    gset string :=
  list_to_set
    (Py.os_path_basename <$>
       List.filter (λ f, fs_isfile env (Py.os_path_join folder_path f))
         names).

(** [{os.path.basename(f) for f in os.listdir(folder_path) if ...}] *)
Definition scan_local_files (folder_path : string) : M (gset string) :=
  names <- os_listdir folder_path ;;
  ret (local_file_set folder_path names).

(** [{obj['Key'].split('/')[-1] for obj in s3_objects}] *)
Definition s3_file_names (s3_objects : list s3_object) : gset string :=
  list_to_set (key_name <$> s3_objects).

(** [rec.s3_folder_name.strip()] *)
Definition strip_field (v : option string) : M string :=
  match v with
  | Some s => ret (Py.strip s)
  | None =>
      raise (Exn AttributeError "'bool' object has no attribute 'strip'")
  end.

(** One turn of the first inner loop of [schedule_backup]. *)
Definition upload_missing (rec : db_backup) (folder_path s3_folder : string)
    (file_name : string) : M unit :=
  let file_path := Py.os_path_join folder_path file_name in
  let s3_key := s3_folder +:+ "/" +:+ file_name in
  try_except
    (upload_to_s3 file_path (s3_bucket_name rec) s3_key
       (s3_access_key rec) (s3_secret_key rec) (s3_region rec) ;;
     logger_info ("Uploaded file to S3: " +:+ s3_key))
    (λ e, isinstance e UserError)
    (λ e, logger_error ("Failed to upload file " +:+ file_name
                        +:+ " to S3: " +:+ str e)).

(** One turn of the second inner loop of [schedule_backup]. *)
Definition delete_extra (rec : db_backup) (s3_client : s3_client)
    (s3_folder : string) (file_name : string) : M unit :=
  let s3_key := s3_folder +:+ "/" +:+ file_name in
  try_except
    (delete_object s3_client (s3_bucket_name rec) s3_key ;;
     logger_info ("Deleted file from S3: " +:+ s3_key))
    (λ e, isinstance e ClientError)
    (λ e, logger_error ("Failed to delete file " +:+ s3_key
                        +:+ " from S3: " +:+ str e)).

(** The two inner loops, from the two inventories on. *)
Definition sync_files (rec : db_backup) (s3_client : s3_client)
    (folder_path s3_folder : string) (local_files s3_files : gset string) :
    M unit :=
  let files_to_upload := local_files ∖ s3_files in
  let files_to_delete := s3_files ∖ local_files in
  for_each (set_iter env files_to_upload)
    (upload_missing rec folder_path s3_folder) ;;
  for_each (set_iter env files_to_delete)
    (delete_extra rec s3_client s3_folder).

(** The first [try] of the loop body; [None] stands for its [continue]. *)
Definition try_scan (folder_path : string) : M (option (gset string)) :=
  try_except
    (local_files <- scan_local_files folder_path ;;
     ret (Some local_files))
    (λ e, isinstance e FileNotFoundError || isinstance e Exception)
    (λ e,
       if isinstance e FileNotFoundError then
         logger_error ("Folder not found: " +:+ folder_path) ;;
         ret None
       else
         logger_error ("Error accessing folder " +:+ folder_path
                       +:+ ": " +:+ str e) ;;
         ret None).

(** The second [try] of the loop body; [None] stands for its [continue]. *)
Definition try_list (rec : db_backup) (s3_folder : string) :
    M (option (s3_client * list s3_object)) :=
  try_except
    (s3_client <- get_s3_client (s3_access_key rec) (s3_secret_key rec)
                    (s3_region rec) ;;
     s3_objects <- list_s3_objects s3_client (s3_bucket_name rec)
                     s3_folder ;;
     ret (Some (s3_client, s3_objects)))
    (λ e, isinstance e Exception)
    (λ e,
       logger_error ("Error accessing S3 bucket "
                     +:+ Py.fmt (s3_bucket_name rec) +:+ ": " +:+ str e) ;;
       ret None).

(** The body of the loop of [schedule_backup]: the cycle of one record. *)
Definition sync_record (rec : db_backup) : M unit :=
  if negb (s3_write rec) then ret tt
  else
    let folder_path := folder rec in
    s3_folder <- strip_field (s3_folder_name rec) ;;
    scanned <- try_scan folder_path ;;
    match scanned with
    | None => ret tt
    | Some local_files =>
        listed <- try_list rec s3_folder ;;
        match listed with
        | None => ret tt
        | Some (s3_client, s3_objects) =>
            let s3_files := s3_file_names s3_objects in
            sync_files rec s3_client folder_path s3_folder
              local_files s3_files
        end
    end.

Definition schedule_backup : M unit :=
  super_schedule_backup env ;;
  conf_ids <- search_all ;;
  for_each conf_ids sync_record.

End Code.

(** ** Reading a trace and a bucket *)

(** The exception a call raised; a log line raises nothing. *)
Definition raised (ev : event) : option exn :=
  match ev with
  | EvListdir _ r | EvClient _ _ _ r | EvListObjects _ _ r
  | EvUploadFile _ _ _ r | EvDeleteObject _ _ r => r
  | EvLog _ _ => None
  end.

(** Every call of the trace went through. *)
Definition calls_ok (t : list event) : Prop :=
  Forall (λ ev, raised ev = None) t.

Global Instance calls_ok_dec t : Decision (calls_ok t).
Proof. unfold calls_ok. apply _. Defined.

(** The [upload_file] calls of a trace: path, bucket and key, in order. *)
Definition upload_calls (t : list event) :
    list (string * option string * string) :=
  omap (λ ev, match ev with
              | EvUploadFile path bucket key _ => Some (path, bucket, key)
              | _ => None
              end) t.

(** The [delete_object] calls of a trace: bucket and key, in order. *)
Definition delete_calls (t : list event) : list (option string * string) :=
  omap (λ ev, match ev with
              | EvDeleteObject bucket key _ => Some (bucket, key)
              | _ => None
              end) t.

(** The calls that reach the remote store. *)
Definition is_remote_call (ev : event) : bool :=
  match ev with
  | EvClient _ _ _ _ | EvListObjects _ _ _
  | EvUploadFile _ _ _ _ | EvDeleteObject _ _ _ => true
  | EvListdir _ _ | EvLog _ _ => false
  end.

(** The key a file name is stored at: [f"{s3_folder}/{file_name}"]. *)
Definition s3_key_of (s3_folder file_name : string) : string :=
  s3_folder +:+ "/" +:+ file_name.

(** The upload the first inner loop makes for a file name. *)
Definition upload_of (rec : db_backup) (folder_path s3_folder n : string) :
    string * option string * string :=
  (Py.os_path_join folder_path n, s3_bucket_name rec, s3_key_of s3_folder n).

(** The delete the second inner loop makes for a file name. *)
Definition delete_of (rec : db_backup) (s3_folder n : string) :
    option string * string :=
  (s3_bucket_name rec, s3_key_of s3_folder n).

(** The line the first [try] of the loop body logs for an exception. *)
Definition scan_error_line (folder_path : string) (e : exn) : string :=
  if isinstance e FileNotFoundError then "Folder not found: " +:+ folder_path
  else "Error accessing folder " +:+ folder_path +:+ ": " +:+ str e.

(** The keys of a bucket under ["{prefix}/"], all of them. *)
Definition keys_under (prefix : string) (keys : gset string) : gset string :=
  filter (λ k, Is_true (Py.startswith (prefix +:+ "/") k)) keys.

(** The names the loop body computes for the keys under ["{prefix}/"]: the
    remote object set of a bucket. *)
Definition remote_names (prefix : string) (keys : gset string) : gset string :=
  set_map (λ k, key_name {| Key := k |}) (keys_under prefix keys).

(** No key under ["{prefix}/"] has a further ['/']. *)
Definition flat_under (prefix : string) (keys : gset string) : Prop :=
  ∀ k, k ∈ keys_under prefix keys →
       ∃ n, k = s3_key_of prefix n ∧ Py.contains "/" n = false.

(** A listing of the keys under ["{prefix}/"] fits one page. *)
Definition one_page (env : Env) (prefix : string) (keys : gset string) : Prop :=
  (size (keys_under prefix keys) ≤ max_keys env)%nat.

Global Instance one_page_dec env prefix keys :
  Decision (one_page env prefix keys).
Proof. unfold one_page. apply _. Defined.

(** The directory entries [os.listdir] gives are file names: not empty, and
    without a ['/']. *)
Definition entries_are_names (env : Env) (path : string) : Prop :=
  ∀ names f, fs_listdir env path = Ok names → f ∈ names →
             f ≠ "" ∧ Py.contains "/" f = false.

(** The two notifications [action_test_s3_connection] can return. *)
Definition notify (title message msg_type : string) : notification :=
  {| n_type := "ir.actions.client";
     n_tag := "display_notification";
     n_title := title;
     n_message := message;
     n_msg_type := msg_type;
     n_sticky := false |}.

Definition success_notification : notification :=
  notify "Connection Test Succeeded!" "Everything seems properly set up!"
    "success".

Definition failure_notification (err : exn) : notification :=
  notify "Connection Test Failed!" (str err) "danger".

(** What [rec.s3_folder_name.strip()] raises on an unset field. *)
Definition strip_error : exn :=
  Exn AttributeError "'bool' object has no attribute 'strip'".

(** ** Reading a run: exceptions, buckets, clients *)

(** The exceptions [upload_to_s3] turns into a [UserError]: those of its
    [except (BotoCoreError, NoCredentialsError)] clause. *)
Definition converted (e : exn) : bool :=
  isinstance e BotoCoreError || isinstance e NoCredentialsError.

(** The [UserError] that [upload_to_s3] raises for such an exception. *)
Definition upload_error (e : exn) : exn :=
  Exn UserError ("Failed to upload backup to S3: " +:+ str e).

(** An exception neither handler of the upload turn takes: it leaves
    [upload_to_s3] as it is, and the loop body too. *)
Definition leaves_upload (e : exn) : Prop :=
  isinstance e BotoCoreError = false ∧ isinstance e UserError = false.

(** An exception the handler of the delete turn does not take. *)
Definition leaves_delete (e : exn) : Prop :=
  isinstance e ClientError = false.

(** The event is a call that raised [e], of a class that leaves the turn
    of the loop the call belongs to. *)
Definition escaping (e : exn) (ev : event) : Prop :=
  match ev with
  | EvClient _ _ _ (Some e') | EvUploadFile _ _ _ (Some e') =>
      e' = e ∧ leaves_upload e
  | EvDeleteObject _ _ (Some e') => e' = e ∧ leaves_delete e
  | _ => False
  end.

(** Every failure of the trace is one the handlers of the two inner loops
    are written for: a [BotoCoreError] (or a [UserError]) from
    [boto3.client] and [upload_file], a [ClientError] from
    [delete_object]. *)
Definition handled_failures (t : list event) : Prop :=
  Forall (λ ev, match ev with
                | EvClient _ _ _ (Some e) | EvUploadFile _ _ _ (Some e) =>
                    ¬ leaves_upload e
                | EvDeleteObject _ _ (Some e) => ¬ leaves_delete e
                | _ => True
                end) t.

(** The keys of a bucket; none when the bucket does not exist. *)
Definition keys_of (s : State) (b : string) : gset string :=
  default ∅ (store s !! b).

(** From [s] to [s'] no bucket appears or disappears, a key appears only
    in [bucket] and among [added], and disappears only from [bucket] and
    among [removed]. *)
Definition changes_within (bucket : option string) (added removed : gset string)
    (s s' : State) : Prop :=
  dom (store s') = dom (store s)
  ∧ ∀ b k,
      (k ∈ keys_of s' b → k ∈ keys_of s b ∨ (bucket = Some b ∧ k ∈ added))
      ∧ (k ∈ keys_of s b → k ∈ keys_of s' b ∨ (bucket = Some b ∧ k ∈ removed)).

(** The number of [boto3.client] calls of a trace. *)
Definition client_calls (t : list event) : nat :=
  length (List.filter (λ ev, match ev with
                             | EvClient _ _ _ _ => true
                             | _ => false
                             end) t).

(** The listing step of the loop body, before its handler. *)
Definition connect_and_list (env : Env) (rec : db_backup) (s3_folder : string) :
    M (option (s3_client * list s3_object)) :=
  s3_client <- get_s3_client (s3_access_key rec) (s3_secret_key rec)
                 (s3_region rec) ;;
  s3_objects <- list_s3_objects env s3_client (s3_bucket_name rec)
                  s3_folder ;;
  ret (Some (s3_client, s3_objects)).

(** The line the second [try] of the loop body logs for an exception. *)
Definition list_error_line (rec : db_backup) (e : exn) : string :=
  "Error accessing S3 bucket " +:+ Py.fmt (s3_bucket_name rec) +:+ ": "
  +:+ str e.

Global Instance handled_failures_dec t : Decision (handled_failures t).
Proof.
  apply Forall_dec. intros [| ? ? ? [e|] | | ? ? ? [e|] | ? ? [e|] |];
    unfold leaves_upload, leaves_delete; apply _.
Defined.

(** ** A concrete installation *)

Module Examples.

(** The backup folder: two dumps and a sub-directory. *)
Definition listdir (p : string) : result (list string) :=
  if String.eqb p "/odoo/backups" then Ok ["a.sql"; "b.sql"; "filestore"]
  else Raise (Exn FileNotFoundError "[Errno 2] No such file or directory").

Definition isfile (p : string) : bool :=
  bool_decide (p ∈ ["/odoo/backups/a.sql"; "/odoo/backups/b.sql"]).

Definition env : Env :=
  {| fs_listdir := listdir;
     fs_isfile := isfile;
     max_keys := 1000;
     set_iter := elements;
     set_iter_perm := λ X, reflexivity (elements X);
     super_schedule_backup := ret tt |}.

Definition target : db_backup :=
  {| folder := "/odoo/backups";
     s3_write := true;
     s3_bucket_name := Some "bk";
     s3_access_key := Some "AK";
     s3_secret_key := Some "SK";
     s3_region := Some "eu-west-1";
     s3_folder_name := Some " prod " |}.

(** A record whose folder does not exist. *)
Definition lost : db_backup :=
  {| folder := "/odoo/gone";
     s3_write := true;
     s3_bucket_name := Some "bk";
     s3_access_key := Some "AK";
     s3_secret_key := Some "SK";
     s3_region := Some "eu-west-1";
     s3_folder_name := Some "gone" |}.

(** A record whose [s3_folder_name] is unset. *)
Definition unnamed : db_backup :=
  {| folder := "/odoo/backups";
     s3_write := true;
     s3_bucket_name := Some "bk";
     s3_access_key := Some "AK";
     s3_secret_key := Some "SK";
     s3_region := Some "eu-west-1";
     s3_folder_name := None |}.

Definition client : s3_client :=
  {| aws_access_key_id := Some "AK";
     aws_secret_access_key := Some "SK";
     region_name := Some "eu-west-1" |}.

Definition state_of (recs : list db_backup) (keys : gset string)
    (fs : list (option exn)) : State :=
  {| records := recs; store := {[ "bk" := keys ]}; faults := fs |}.

(** The bucket of the example of the specification: [b.sql] and [c.sql]
    under the prefix, and a key of another prefix. *)
Definition st : State :=
  state_of [target] {[ "prod/b.sql"; "prod/c.sql"; "other/x.sql" ]} [].

(** The same names on both sides. *)
Definition st_synced : State :=
  state_of [target] {[ "prod/a.sql"; "prod/b.sql"; "other/x.sql" ]} [].

(** A key one level further down. *)
Definition st_nested : State :=
  state_of [target] {[ "prod/b.sql"; "prod/2024/c.sql" ]} [].

(** A folder marker under the prefix. *)
Definition st_marker : State :=
  state_of [target] {[ "prod/"; "prod/a.sql"; "prod/b.sql" ]} [].

(** What boto3 raises when the service refuses an upload. *)
Definition refused : exn :=
  Exn S3UploadFailedError
    "Failed to upload /odoo/backups/a.sql to bk/prod/a.sql: An error occurred (AccessDenied) when calling the PutObject operation: Access Denied".

(** What botocore raises when the network is down. *)
Definition offline : exn :=
  Exn EndpointConnectionError
    "Could not connect to the endpoint URL: https://bk.s3.eu-west-1.amazonaws.com/".

(** What botocore raises when the service rejects the access key. *)
Definition denied : exn :=
  Exn ClientError
    "An error occurred (InvalidAccessKeyId) when calling the ListObjectsV2 operation: The AWS Access Key Id you provided does not exist in our records.".

(** The upload of [a.sql] is refused: the fourth call to boto3, the
    [upload_file] of the first record, raises [refused].  A second record
    waits for its turn. *)
Definition st_refused : State :=
  state_of [target; target] {[ "prod/b.sql"; "prod/c.sql" ]}
    [None; None; None; Some refused].

(** The same, with the folder marker in the bucket. *)
Definition st_marker_refused : State :=
  state_of [target] {[ "prod/"; "prod/b.sql" ]}
    [None; None; None; Some refused].

(** The network is down for the upload of [a.sql], and back afterwards. *)
Definition st_offline : State :=
  state_of [target] {[ "prod/b.sql" ]} [None; None; None; Some offline].

(** The network is down for the delete of [c.sql]: the third call to
    boto3, the [delete_object] of the first record, raises [offline]. *)
Definition st_delete_offline : State :=
  state_of [target; target] {[ "prod/a.sql"; "prod/b.sql"; "prod/c.sql" ]}
    [None; None; Some offline].

(** The access key is rejected when the bucket is listed. *)
Definition st_denied : State :=
  state_of [target] {[ "prod/b.sql" ]} [None; Some denied].

(** A run over a record without folder, a record without folder name and
    a third record. *)
Definition st_three : State :=
  state_of [lost; unnamed; target] {[ "prod/b.sql"; "prod/c.sql" ]} [].

(** [n] keys under ["prod/"]: [prod/0], [prod/1], ... *)
Definition numbered_keys (n : nat) : gset string :=
  list_to_set ((λ i, "prod/" +:+ pretty i) <$> seq 0 n).

(** One key more than a page holds. *)
Definition st_crowded : State := state_of [target] (numbered_keys 1001) [].

End Examples.

(** ** More of the concrete installation *)

Module MoreExamples.

(** A record that is switched off, and has no folder name either. *)
Definition disabled : db_backup :=
  {| folder := "/odoo/backups";
     s3_write := false;
     s3_bucket_name := Some "bk";
     s3_access_key := Some "AK";
     s3_secret_key := Some "SK";
     s3_region := Some "eu-west-1";
     s3_folder_name := None |}.

(** The network is down for the upload of [a.sql]; [c.sql] is to be
    deleted after it. *)
Definition st_offline_upload : State :=
  Examples.state_of [Examples.target] {[ "prod/b.sql"; "prod/c.sql" ]}
    [None; None; None; Some Examples.offline].

(** Two local files are missing in the bucket. *)
Definition st_empty_prefix : State :=
  Examples.state_of [Examples.target] {[ "other/x.sql" ]} [].

End MoreExamples.

(** ** Strings: splitting, base names, prefixes *)

Section StringFacts.

Variable sep : ascii.

Lemma split_nonempty s : Py.split sep s ≠ [].
Proof.
  destruct s as [|c s]; simpl; [done|].
  destruct (Ascii.eqb c sep); [done|].
  by destruct (Py.split sep s).
Qed.

Lemma split_no_sep s : Py.contains sep s = false → Py.split sep s = [s].
Proof.
  induction s as [|c s IH]; simpl; [done|].
  intros [Hc Hs]%orb_false_iff.
  rewrite Hc, (IH Hs). done.
Qed.

Lemma split_two s :
  Py.contains sep s = true → ∃ h h' t, Py.split sep s = h :: h' :: t.
Proof.
  induction s as [|c s IH]; simpl; [done|].
  destruct (Ascii.eqb c sep) eqn:Ec; simpl.
  - intros _. pose proof (split_nonempty s).
    destruct (Py.split sep s) as [|h t]; [done|]. eauto.
  - intros Hs. destruct (IH Hs) as (h & h' & t & ->). eauto.
Qed.

Lemma contains_app_sep a b : Py.contains sep (a +:+ String sep b) = true.
Proof.
  induction a as [|c a IH]; simpl.
  - by rewrite Ascii.eqb_refl.
  - rewrite IH. apply orb_true_r.
Qed.

Lemma after_rfind_cons c s :
  Py.after_rfind sep (String c s) =
  if Py.contains sep (String c s) then Py.after_rfind sep s else String c s.
Proof. reflexivity. Qed.

Lemma after_rfind_no_sep s :
  Py.contains sep s = false → Py.after_rfind sep s = s.
Proof.
  destruct s as [|c s]; [done|].
  intros H. by rewrite after_rfind_cons, H.
Qed.

Lemma after_rfind_app_sep a b :
  Py.after_rfind sep (a +:+ String sep b) = Py.after_rfind sep b.
Proof.
  induction a as [|c a IH].
  - change ("" +:+ String sep b) with (String sep b).
    rewrite after_rfind_cons. simpl. by rewrite Ascii.eqb_refl.
  - change (String c a +:+ String sep b) with (String c (a +:+ String sep b)).
    rewrite after_rfind_cons.
    change (String c (a +:+ String sep b)) with (String c a +:+ String sep b).
    by rewrite contains_app_sep.
Qed.

Lemma contains_after_rfind s : Py.contains sep (Py.after_rfind sep s) = false.
Proof.
  induction s as [|c s IH]; [done|].
  rewrite after_rfind_cons.
  destruct (Py.contains sep (String c s)) eqn:E; [exact IH | exact E].
Qed.

(** The last item of a split is what follows the last separator. *)
Lemma last_split s : last (Py.split sep s) = Some (Py.after_rfind sep s).
Proof.
  induction s as [|c s IH]; [done|].
  rewrite after_rfind_cons. cbn [Py.split Py.contains].
  destruct (Ascii.eqb c sep) eqn:Ec; cbn [orb].
  - pose proof (split_nonempty s) as Hne.
    destruct (Py.split sep s) as [|h t] eqn:Es; [done|].
    exact IH.
  - destruct (Py.contains sep s) eqn:Hs.
    + destruct (split_two s Hs) as (h & h' & t & Es).
      rewrite Es in IH |- *. exact IH.
    + rewrite (split_no_sep s Hs). done.
Qed.

End StringFacts.

Lemma startswith_app p x : Py.startswith p (p +:+ x) = true.
Proof.
  unfold Py.startswith. induction p as [|c p IH]; simpl.
  - by destruct x.
  - destruct (ascii_dec c c); [exact IH | congruence].
Qed.

Lemma startswith_inv p k : Py.startswith p k = true → ∃ x, k = p +:+ x.
Proof.
  unfold Py.startswith. revert k. induction p as [|c p IH]; intros k; simpl.
  - intros _. by exists k.
  - destruct k as [|d k]; simpl; [done|].
    destruct (ascii_dec c d) as [->|]; [|done].
    intros [x ->]%IH. by exists x.
Qed.

Lemma s3_key_of_inj prefix : Inj (=) (=) (s3_key_of prefix).
Proof.
  intros n m H. unfold s3_key_of in H.
  by apply (inj (String.app prefix)), (inj (String.app "/")) in H.
Qed.

Lemma s3_key_of_assoc prefix n : s3_key_of prefix n = (prefix +:+ "/") +:+ n.
Proof.
  unfold s3_key_of. induction prefix as [|c p IH]; [done|].
  change (String c (p +:+ "/" +:+ n) = String c ((p +:+ "/") +:+ n)).
  by f_equal.
Qed.

Lemma startswith_s3_key_of prefix n :
  Py.startswith (prefix +:+ "/") (s3_key_of prefix n) = true.
Proof. rewrite s3_key_of_assoc. apply startswith_app. Qed.

(** The name computed for a key is what follows its last ['/']. *)
Lemma key_name_after_rfind k :
  key_name {| Key := k |} = Py.after_rfind "/" k.
Proof. unfold key_name, Py.item_neg1. simpl. by rewrite last_split. Qed.

Lemma key_name_s3_key_of prefix n :
  Py.contains "/" n = false → key_name {| Key := s3_key_of prefix n |} = n.
Proof.
  intros Hn. rewrite key_name_after_rfind. unfold s3_key_of.
  change ("/" +:+ n) with (String "/" n).
  by rewrite after_rfind_app_sep, after_rfind_no_sep.
Qed.

(** ** Runs of the collaborators and of the methods *)

#[local] Set Warnings "-clear-no-such-hyp".
Local Arguments String.append : simpl never.

Ltac run_cases := repeat (case_match; simplify_eq/=).

Lemma calls_ok_cons ev t : calls_ok (ev :: t) ↔ raised ev = None ∧ calls_ok t.
Proof. unfold calls_ok. by rewrite Forall_cons. Qed.

Lemma calls_ok_app t1 t2 : calls_ok (t1 ++ t2) ↔ calls_ok t1 ∧ calls_ok t2.
Proof. unfold calls_ok. by rewrite Forall_app. Qed.

Lemma upload_calls_app t1 t2 :
  upload_calls (t1 ++ t2) = upload_calls t1 ++ upload_calls t2.
Proof. apply omap_app. Qed.

Lemma delete_calls_app t1 t2 :
  delete_calls (t1 ++ t2) = delete_calls t1 ++ delete_calls t2.
Proof. apply omap_app. Qed.

Lemma isinstance_Exception e : isinstance e Exception = true.
Proof. destruct e as [[] msg]; reflexivity. Qed.

Lemma for_each_nil {A} (body : A → M unit) s :
  for_each [] body s = (Ok tt, s, []).
Proof. reflexivity. Qed.

Lemma for_each_cons {A} (body : A → M unit) x l s :
  for_each (x :: l) body s =
  match body x s with
  | (Ok _, s1, t1) =>
      let '(r, s2, t2) := for_each l body s1 in (r, s2, t1 ++ t2)
  | (Raise e, s1, t1) => (Raise e, s1, t1)
  end.
Proof. reflexivity. Qed.

(** A loop over [pre ++ post] is the loop over [pre], then, if that came to
    its end, the loop over [post]. *)
Lemma for_each_app {A} (body : A → M unit) pre post s :
  for_each (pre ++ post) body s =
  match for_each pre body s with
  | (Ok _, s1, t1) =>
      let '(r, s2, t2) := for_each post body s1 in (r, s2, t1 ++ t2)
  | (Raise e, s1, t1) => (Raise e, s1, t1)
  end.
Proof.
  revert s. induction pre as [|x pre IH]; intros s.
  - rewrite for_each_nil. simpl. by destruct (for_each post body s) as [[??]?].
  - change ((x :: pre) ++ post) with (x :: (pre ++ post)).
    rewrite !for_each_cons.
    destruct (body x s) as [[[[]|e] s1] t1]; [|done].
    rewrite IH.
    destruct (for_each pre body s1) as [[[[]|e] s2] t2]; [|done].
    destruct (for_each post body s2) as [[r3 s3] t3].
    by rewrite app_assoc.
Qed.

Section Runs.

Context (env : Env).

Lemma boto3_client_inv a sk rg s r s' t :
  boto3_client a sk rg s = (r, s', t) →
  records s' = records s ∧ store s' = store s
  ∧ t = [EvClient a sk rg (outcome r)].
Proof.
  unfold boto3_client, remote_call, pop_fault, ret.
  intros H. run_cases; done.
Qed.

(** What a call raises comes from the oracle, or from the checks of the
    model, which all carry a text. *)
Lemma boto3_client_raises a sk rg s e s' t :
  boto3_client a sk rg s = (Raise e, s', t) → Some e ∈ faults s.
Proof.
  unfold boto3_client, remote_call, pop_fault, ret.
  intros H. run_cases.
  apply elem_of_cons; by left.
Qed.

Lemma boto3_client_faults a sk rg s r s' t :
  boto3_client a sk rg s = (r, s', t) → faults s' = tail (faults s).
Proof.
  unfold boto3_client, remote_call, pop_fault, ret.
  intros H. run_cases; done.
Qed.

Lemma list_objects_v2_raises c bucket prefix s e s' t :
  list_objects_v2 env c bucket prefix s = (Raise e, s', t) →
  Some e ∈ faults s ∨ str e ≠ "".
Proof.
  unfold list_objects_v2, remote_call, pop_fault, raise.
  intros H. run_cases; try (by right).
  left. apply elem_of_cons; by left.
Qed.

Lemma elem_of_tail {A} (x : A) l : x ∈ tail l → x ∈ l.
Proof. destruct l; [done|]. simpl. intros ?. apply elem_of_cons; by right. Qed.

Lemma upload_file_inv c path bucket key s r s' t :
  upload_file env c path bucket key s = (r, s', t) →
  records s' = records s
  ∧ t = [EvUploadFile path bucket key (outcome r)]
  ∧ match r with
    | Ok _ => ∃ b keys, bucket = Some b ∧ store s !! b = Some keys
                ∧ store s' = <[b := {[key]} ∪ keys]> (store s)
    | Raise _ => store s' = store s
    end.
Proof.
  unfold upload_file, remote_call, pop_fault, raise.
  intros H. run_cases; eauto 10.
Qed.

Lemma delete_object_inv c bucket key s r s' t :
  delete_object c bucket key s = (r, s', t) →
  records s' = records s
  ∧ t = [EvDeleteObject bucket key (outcome r)]
  ∧ match r with
    | Ok _ => ∃ b keys, bucket = Some b ∧ store s !! b = Some keys
                ∧ store s' = <[b := keys ∖ {[key]}]> (store s)
    | Raise _ => store s' = store s
    end.
Proof.
  unfold delete_object, remote_call, pop_fault, raise.
  intros H. run_cases; eauto 10.
Qed.

Lemma list_objects_v2_inv c bucket prefix s r s' t :
  list_objects_v2 env c bucket prefix s = (r, s', t) →
  records s' = records s ∧ store s' = store s
  ∧ t = [EvListObjects bucket prefix (outcome r)]
  ∧ ∀ resp, r = Ok resp →
      ∃ b keys, bucket = Some b ∧ store s !! b = Some keys
        ∧ default [] (Contents resp) =
            (λ k, {| Key := k |}) <$>
              take (max_keys env) (matching_keys prefix keys).
Proof.
  unfold list_objects_v2, remote_call, pop_fault, raise.
  intros H. run_cases; (do 3 (split; [done|])); intros resp ?;
    simplify_eq; eexists _, _; (do 2 (split; [done|])); simpl;
    repeat match goal with H : take _ _ = _ |- _ => rewrite H end; done.
Qed.

Lemma list_s3_objects_inv c bucket prefix s r s' t :
  list_s3_objects env c bucket prefix s = (r, s', t) →
  records s' = records s ∧ store s' = store s
  ∧ t = [EvListObjects bucket (Some (prefix +:+ "/")) (outcome r)]
  ∧ ∀ objs, r = Ok objs →
      ∃ b keys, bucket = Some b ∧ store s !! b = Some keys
        ∧ objs = (λ k, {| Key := k |}) <$>
                   take (max_keys env)
                     (matching_keys (Some (prefix +:+ "/")) keys).
Proof.
  unfold list_s3_objects, bind, ret. intros H.
  destruct (list_objects_v2 _ _ _ _ _) as [[r1 s1] t1] eqn:E.
  apply list_objects_v2_inv in E as (Hr & Hs & -> & Hc).
  destruct r1 as [resp|e]; simplify_eq/=.
  - do 3 (split; [done|]). intros objs ?; simplify_eq.
    destruct (Hc resp eq_refl) as (b & keys & -> & Hb & ->).
    by exists b, keys.
  - do 3 (split; [done|]). intros ? ?. done.
Qed.

Lemma upload_to_s3_inv path bucket key a sk rg s r s' t :
  upload_to_s3 env path bucket key a sk rg s = (r, s', t) →
  records s' = records s
  ∧ delete_calls t = []
  ∧ sublist (upload_calls t) [(path, bucket, key)]
  ∧ (calls_ok t →
       r = Ok tt ∧ upload_calls t = [(path, bucket, key)]
       ∧ ∃ b keys, bucket = Some b ∧ store s !! b = Some keys
           ∧ store s' = <[b := {[key]} ∪ keys]> (store s)).
Proof.
  unfold upload_to_s3, try_except, bind. intros H.
  destruct (boto3_client _ _ _ _) as [[r1 s1] t1] eqn:E1.
  apply boto3_client_inv in E1 as (Hr1 & Hs1 & ->).
  destruct r1 as [c|e]; simpl in H.
  - destruct (upload_file _ _ _ _ _ _) as [[r2 s2] t2] eqn:E2.
    apply upload_file_inv in E2 as (Hr2 & -> & Hs2).
    destruct r2 as [[]|e]; simpl in H.
    + simplify_eq/=. split; [congruence|]. do 2 (split; [done|]).
      intros _. do 2 (split; [done|]).
      destruct Hs2 as (b & keys & -> & Hb & ->).
      exists b, keys. by rewrite <- Hs1.
    + destruct (_ || _); simplify_eq/=.
      all: split; [congruence|]; do 2 (split; [done|]).
      all: intros Hok; apply calls_ok_cons in Hok as [_ Hok];
        by apply calls_ok_cons in Hok as [? _].
  - destruct (_ || _); simplify_eq/=.
    all: split; [congruence|]; split; [done|]; split;
      [apply sublist_nil_l|].
    all: intros Hok; by apply calls_ok_cons in Hok as [? _].
Qed.

Lemma upload_missing_inv rec folder_path s3_folder n s r s' t :
  upload_missing env rec folder_path s3_folder n s = (r, s', t) →
  records s' = records s
  ∧ delete_calls t = []
  ∧ sublist (upload_calls t) [upload_of rec folder_path s3_folder n]
  ∧ (calls_ok t →
       r = Ok tt
       ∧ upload_calls t = [upload_of rec folder_path s3_folder n]
       ∧ ∃ b keys, s3_bucket_name rec = Some b ∧ store s !! b = Some keys
           ∧ store s' = <[b := {[s3_key_of s3_folder n]} ∪ keys]> (store s)).
Proof.
  unfold upload_missing, try_except, bind, upload_of. intros H.
  destruct (upload_to_s3 _ _ _ _ _ _ _ _) as [[r1 s1] t1] eqn:E1.
  apply upload_to_s3_inv in E1 as (Hr1 & Hd1 & Hu1 & Hok1).
  destruct r1 as [[]|e]; simpl in H.
  - simplify_eq/=.
    rewrite delete_calls_app, upload_calls_app, Hd1. simpl.
    rewrite app_nil_r. do 3 (split; [done|]).
    intros [Hok _]%calls_ok_app. by destruct (Hok1 Hok) as (_ & ? & ?).
  - destruct (isinstance e UserError); simplify_eq/=.
    + rewrite delete_calls_app, upload_calls_app, Hd1. simpl.
      rewrite app_nil_r. do 3 (split; [done|]).
      intros [Hok _]%calls_ok_app. by destruct (Hok1 Hok).
    + do 3 (split; [done|]).
      intros Hok. by destruct (Hok1 Hok).
Qed.

Lemma delete_extra_inv rec c s3_folder n s r s' t :
  delete_extra rec c s3_folder n s = (r, s', t) →
  records s' = records s
  ∧ upload_calls t = []
  ∧ delete_calls t = [delete_of rec s3_folder n]
  ∧ (calls_ok t →
       r = Ok tt
       ∧ ∃ b keys, s3_bucket_name rec = Some b ∧ store s !! b = Some keys
           ∧ store s' = <[b := keys ∖ {[s3_key_of s3_folder n]}]> (store s)).
Proof.
  unfold delete_extra, try_except, bind, delete_of. intros H.
  destruct (delete_object _ _ _ _) as [[r1 s1] t1] eqn:E1.
  apply delete_object_inv in E1 as (Hr1 & -> & Hs1).
  destruct r1 as [[]|e]; simpl in H.
  - by simplify_eq/=.
  - destruct (isinstance e ClientError); simplify_eq/=.
    all: do 3 (split; [done|]).
    all: intros Hok; by apply calls_ok_cons in Hok as [? _].
Qed.

(** The first inner loop: at most one upload a name, in the order of
    the names; one each when no call fails. *)
Lemma upload_loop_inv rec folder_path s3_folder l :
  ∀ s r s' t,
    for_each l (upload_missing env rec folder_path s3_folder) s
      = (r, s', t) →
    records s' = records s
    ∧ delete_calls t = []
    ∧ sublist (upload_calls t) (upload_of rec folder_path s3_folder <$> l)
    ∧ (calls_ok t →
         r = Ok tt
         ∧ upload_calls t = upload_of rec folder_path s3_folder <$> l
         ∧ ∀ b keys, s3_bucket_name rec = Some b →
             store s !! b = Some keys →
             store s' !! b
               = Some (list_to_set (s3_key_of s3_folder <$> l) ∪ keys)).
Proof.
  induction l as [|n l IH]; intros s r s' t H.
  - rewrite for_each_nil in H. simplify_eq. do 3 (split; [done|]).
    intros _. do 2 (split; [done|]).
    intros b keys _ Hb. rewrite Hb. f_equal. set_solver.
  - rewrite for_each_cons in H.
    destruct (upload_missing _ _ _ _ _ _) as [[r1 s1] t1] eqn:E1.
    apply upload_missing_inv in E1 as (Hr1 & Hd1 & Hu1 & Hok1).
    destruct r1 as [[]|e].
    + destruct (for_each l _ s1) as [[r2 s2] t2] eqn:E2.
      destruct (IH _ _ _ _ E2) as (Hr2 & Hd2 & Hu2 & Hok2). simplify_eq.
      rewrite delete_calls_app, upload_calls_app, Hd1, Hd2.
      split; [congruence|]. split; [done|]. split.
      { change (upload_of rec folder_path s3_folder <$> n :: l)
          with ([upload_of rec folder_path s3_folder n]
                ++ (upload_of rec folder_path s3_folder <$> l)).
        by apply sublist_app. }
      intros [Hk1 Hk2]%calls_ok_app.
      destruct (Hok1 Hk1) as (_ & -> & b1 & keys1 & Hb1 & Hs & Hs1).
      destruct (Hok2 Hk2) as (-> & -> & Hst2).
      do 2 (split; [done|]).
      intros b keys Hb Hkeys. rewrite Hb1 in Hb. simplify_eq.
      erewrite Hst2; [|done|rewrite Hs1; apply lookup_insert_eq].
      f_equal. set_solver.
    + simplify_eq. do 2 (split; [done|]). split.
      { etrans; [exact Hu1|]. rewrite fmap_cons.
        apply sublist_skip, sublist_nil_l. }
      intros Hok. by destruct (Hok1 Hok).
Qed.

(** The second inner loop: one delete a name, in the order of the names,
    up to the turn that raises. *)
Lemma delete_loop_inv rec c s3_folder l :
  ∀ s r s' t,
    for_each l (delete_extra rec c s3_folder) s = (r, s', t) →
    records s' = records s
    ∧ upload_calls t = []
    ∧ delete_calls t `prefix_of` (delete_of rec s3_folder <$> l)
    ∧ (r = Ok tt → delete_calls t = delete_of rec s3_folder <$> l)
    ∧ (calls_ok t →
         r = Ok tt
         ∧ ∀ b keys, s3_bucket_name rec = Some b →
             store s !! b = Some keys →
             store s' !! b
               = Some (keys ∖ list_to_set (s3_key_of s3_folder <$> l))).
Proof.
  induction l as [|n l IH]; intros s r s' t H.
  - rewrite for_each_nil in H. simplify_eq. do 4 (split; [done|]).
    intros _. split; [done|].
    intros b keys _ Hb. rewrite Hb. f_equal. set_solver.
  - rewrite for_each_cons in H.
    destruct (delete_extra _ _ _ _ _) as [[r1 s1] t1] eqn:E1.
    apply delete_extra_inv in E1 as (Hr1 & Hu1 & Hd1 & Hok1).
    destruct r1 as [[]|e].
    + destruct (for_each l _ s1) as [[r2 s2] t2] eqn:E2.
      destruct (IH _ _ _ _ E2) as (Hr2 & Hu2 & Hd2 & Hall2 & Hok2).
      simplify_eq.
      rewrite delete_calls_app, upload_calls_app, Hu1, Hu2, Hd1.
      split; [congruence|]. split; [done|]. split.
      { by apply (prefix_app [delete_of rec s3_folder n]). }
      split; [intros ->; by rewrite Hall2|].
      intros [Hk1 Hk2]%calls_ok_app.
      destruct (Hok1 Hk1) as (_ & b1 & keys1 & Hb1 & Hs & Hs1).
      destruct (Hok2 Hk2) as (-> & Hst2).
      split; [done|].
      intros b keys Hb Hkeys. rewrite Hb1 in Hb. simplify_eq.
      erewrite Hst2; [|done|rewrite Hs1; apply lookup_insert_eq].
      f_equal. set_solver.
    + simplify_eq. rewrite Hd1. do 2 (split; [done|]). split.
      { by exists (delete_of rec s3_folder <$> l). }
      split; [done|].
      intros Hok. by destruct (Hok1 Hok).
Qed.

Lemma elem_of_set_iter (X : gset string) n : n ∈ set_iter env X ↔ n ∈ X.
Proof. by rewrite (set_iter_perm env X), elem_of_elements. Qed.

Lemma set_iter_empty : set_iter env ∅ = [].
Proof.
  apply Permutation_nil_r. rewrite (set_iter_perm env ∅).
  by rewrite elements_empty.
Qed.

Lemma list_to_set_set_iter (f : string → string) (X : gset string) :
  list_to_set (f <$> set_iter env X) = (set_map f X : gset string).
Proof.
  apply set_eq. intros k.
  rewrite elem_of_list_to_set, list_elem_of_fmap, elem_of_map.
  by setoid_rewrite elem_of_set_iter.
Qed.

Lemma try_scan_run folder_path s :
  try_scan env folder_path s =
  match fs_listdir env folder_path with
  | Ok names =>
      (Ok (Some (local_file_set env folder_path names)), s,
       [EvListdir folder_path None])
  | Raise e =>
      (Ok None, s,
       [EvListdir folder_path (Some e);
        EvLog ERROR (scan_error_line folder_path e)])
  end.
Proof.
  unfold try_scan, scan_local_files, os_listdir, try_except, bind, ret,
    scan_error_line.
  destruct (fs_listdir env folder_path) as [names|e]; simpl; [done|].
  rewrite isinstance_Exception, orb_true_r.
  by destruct (isinstance e FileNotFoundError).
Qed.

(** The second [try] of the loop body never lets an exception out; it
    gives the listing exactly when both of its calls go through. *)
Lemma try_list_inv rec s3_folder s r s' t :
  try_list env rec s3_folder s = (r, s', t) →
  records s' = records s ∧ store s' = store s
  ∧ upload_calls t = [] ∧ delete_calls t = []
  ∧ match r with
    | Ok (Some (c, objs)) =>
        t = [EvClient (s3_access_key rec) (s3_secret_key rec)
               (s3_region rec) None;
             EvListObjects (s3_bucket_name rec) (Some (s3_folder +:+ "/"))
               None]
        ∧ ∃ b keys, s3_bucket_name rec = Some b
            ∧ store s !! b = Some keys
            ∧ objs = (λ k, {| Key := k |}) <$>
                       take (max_keys env)
                         (matching_keys (Some (s3_folder +:+ "/")) keys)
    | Ok None => ¬ calls_ok t
    | Raise _ => False
    end.
Proof.
  unfold try_list, get_s3_client, try_except, bind. intros H.
  destruct (boto3_client _ _ _ _) as [[r1 s1] t1] eqn:E1.
  apply boto3_client_inv in E1 as (Hr1 & Hs1 & ->).
  destruct r1 as [c|e]; simpl in H.
  - destruct (list_s3_objects _ _ _ _ _) as [[r2 s2] t2] eqn:E2.
    apply list_s3_objects_inv in E2 as (Hr2 & Hs2 & -> & Hobjs).
    destruct r2 as [objs|e]; simpl in H.
    + simplify_eq/=. do 2 (split; [congruence|]). do 3 (split; [done|]).
      destruct (Hobjs objs eq_refl) as (b & keys & Hb & Hk & ->).
      exists b, keys. by rewrite <- Hs1.
    + rewrite isinstance_Exception in H. simplify_eq/=.
      do 2 (split; [congruence|]). do 2 (split; [done|]).
      intros Hok. apply calls_ok_cons in Hok as [_ Hok].
      by apply calls_ok_cons in Hok as [? _].
  - rewrite isinstance_Exception in H. simplify_eq/=.
    do 4 (split; [done|]).
    intros Hok. by apply calls_ok_cons in Hok as [? _].
Qed.

Lemma sync_files_inv rec c folder_path s3_folder (L R : gset string)
    s r s' t :
  sync_files env rec c folder_path s3_folder L R s = (r, s', t) →
  records s' = records s
  ∧ sublist (upload_calls t)
      (upload_of rec folder_path s3_folder <$> set_iter env (L ∖ R))
  ∧ delete_calls t
      `prefix_of` (delete_of rec s3_folder <$> set_iter env (R ∖ L))
  ∧ (r = Ok tt →
       delete_calls t = delete_of rec s3_folder <$> set_iter env (R ∖ L))
  ∧ (calls_ok t →
       r = Ok tt
       ∧ upload_calls t
           = upload_of rec folder_path s3_folder <$> set_iter env (L ∖ R)
       ∧ ∀ b keys, s3_bucket_name rec = Some b →
           store s !! b = Some keys →
           store s' !! b
             = Some ((set_map (s3_key_of s3_folder) (L ∖ R) ∪ keys)
                     ∖ set_map (s3_key_of s3_folder) (R ∖ L))).
Proof.
  unfold sync_files, bind. intros H.
  destruct (for_each (set_iter env (L ∖ R)) _ s) as [[r1 s1] t1] eqn:E1.
  apply upload_loop_inv in E1 as (Hr1 & Hd1 & Hu1 & Hok1).
  destruct r1 as [[]|e].
  - destruct (for_each (set_iter env (R ∖ L)) _ s1) as [[r2 s2] t2] eqn:E2.
    apply delete_loop_inv in E2 as (Hr2 & Hu2 & Hd2 & Hall2 & Hok2).
    simplify_eq.
    rewrite upload_calls_app, delete_calls_app, Hd1, Hu2, app_nil_r.
    split; [congruence|]. do 3 (split; [done|]).
    intros [Hk1 Hk2]%calls_ok_app.
    destruct (Hok1 Hk1) as (_ & -> & Hst1).
    destruct (Hok2 Hk2) as (-> & Hst2).
    do 2 (split; [done|]).
    intros b keys Hb Hkeys.
    rewrite (Hst2 b _ Hb (Hst1 b keys Hb Hkeys)).
    by rewrite !list_to_set_set_iter.
  - simplify_eq. rewrite Hd1. split; [done|]. split; [done|].
    split; [apply prefix_nil|]. split; [done|].
    intros Hok. by destruct (Hok1 Hok).
Qed.

Lemma sync_record_disabled rec s :
  s3_write rec = false → sync_record env rec s = (Ok tt, s, []).
Proof. unfold sync_record. by intros ->. Qed.

Lemma sync_record_unset rec s :
  s3_write rec = true → s3_folder_name rec = None →
  sync_record env rec s = (Raise strip_error, s, []).
Proof. unfold sync_record. by intros -> ->. Qed.

(** The cycle of an enabled record, phase by phase. *)
Lemma sync_record_run rec name s :
  s3_write rec = true → s3_folder_name rec = Some name →
  sync_record env rec s =
  match fs_listdir env (folder rec) with
  | Raise e =>
      (Ok tt, s,
       [EvListdir (folder rec) (Some e);
        EvLog ERROR (scan_error_line (folder rec) e)])
  | Ok names =>
      match try_list env rec (Py.strip name) s with
      | (Ok (Some (c, objs)), s1, t1) =>
          let '(r, s2, t2) :=
            sync_files env rec c (folder rec) (Py.strip name)
              (local_file_set env (folder rec) names)
              (s3_file_names objs) s1 in
          (r, s2, EvListdir (folder rec) None :: t1 ++ t2)
      | (Ok None, s1, t1) => (Ok tt, s1, EvListdir (folder rec) None :: t1)
      | (Raise e, s1, t1) =>
          (Raise e, s1, EvListdir (folder rec) None :: t1)
      end
  end.
Proof.
  intros Hw Hn. unfold sync_record. rewrite Hw, Hn. simpl.
  unfold bind at 1. simpl. unfold bind at 1. rewrite try_scan_run.
  destruct (fs_listdir env (folder rec)) as [names|e]; [|done].
  unfold bind at 1.
  destruct (try_list _ _ _ _) as [[[[[c objs]|]|e] s1] t1]; simpl.
  - by destruct (sync_files _ _ _ _ _ _ _ _) as [[??]?].
  - by rewrite app_nil_r.
  - done.
Qed.

End Runs.

(** ** Names and keys: the inventories as sets *)

Section Inventories.

Context (env : Env).

Lemma matching_keys_elem prefix keys k :
  k ∈ matching_keys (Some (prefix +:+ "/")) keys ↔ k ∈ keys_under prefix keys.
Proof.
  unfold matching_keys, keys_under. simpl.
  by rewrite merge_sort_Permutation, elem_of_elements.
Qed.

Lemma matching_keys_length prefix keys :
  length (matching_keys (Some (prefix +:+ "/")) keys)
    = size (keys_under prefix keys).
Proof.
  unfold matching_keys, keys_under. simpl.
  by rewrite merge_sort_Permutation.
Qed.

Lemma matching_keys_NoDup prefix keys :
  NoDup (matching_keys (Some (prefix +:+ "/")) keys).
Proof.
  unfold matching_keys. rewrite merge_sort_Permutation.
  apply NoDup_elements.
Qed.

Lemma take_matching_keys prefix keys :
  one_page env prefix keys →
  take (max_keys env) (matching_keys (Some (prefix +:+ "/")) keys)
    = matching_keys (Some (prefix +:+ "/")) keys.
Proof.
  intros H. apply take_ge. by rewrite matching_keys_length.
Qed.

(** On a listing that fits one page, the names the loop body computes are
    the names of all the keys under the prefix. *)
Lemma s3_file_names_one_page prefix keys :
  one_page env prefix keys →
  s3_file_names
    ((λ k, {| Key := k |}) <$>
       take (max_keys env) (matching_keys (Some (prefix +:+ "/")) keys))
    = remote_names prefix keys.
Proof.
  intros H. rewrite (take_matching_keys _ _ H).
  unfold s3_file_names, remote_names. apply set_eq. intros n.
  rewrite elem_of_list_to_set, <- list_fmap_compose, list_elem_of_fmap,
    elem_of_map.
  by setoid_rewrite matching_keys_elem.
Qed.

Lemma local_file_set_elem folder_path names n :
  n ∈ local_file_set env folder_path names ↔
  ∃ f, n = Py.os_path_basename f ∧ f ∈ names
       ∧ fs_isfile env (Py.os_path_join folder_path f) = true.
Proof.
  unfold local_file_set.
  rewrite elem_of_list_to_set, list_elem_of_fmap.
  by setoid_rewrite list_elem_of_In; setoid_rewrite filter_In.
Qed.

Lemma local_file_set_no_sep folder_path names n :
  n ∈ local_file_set env folder_path names → Py.contains "/" n = false.
Proof.
  intros (f & -> & _)%local_file_set_elem. apply contains_after_rfind.
Qed.

Lemma local_file_set_names folder_path names n :
  entries_are_names env folder_path →
  fs_listdir env folder_path = Ok names →
  n ∈ local_file_set env folder_path names →
  n ∈ names ∧ n ≠ "".
Proof.
  intros Hwf Hls (f & -> & Hf & _)%local_file_set_elem.
  destruct (Hwf names f Hls Hf) as [Hne Hsep].
  unfold Py.os_path_basename. by rewrite after_rfind_no_sep.
Qed.

Lemma keys_under_elem prefix keys k :
  k ∈ keys_under prefix keys ↔
  k ∈ keys ∧ Py.startswith (prefix +:+ "/") k = true.
Proof.
  unfold keys_under. rewrite elem_of_filter, Is_true_true. tauto.
Qed.

(** What is under the prefix once the missing names are uploaded and the
    extra ones deleted: the local names, if the keys were flat. *)
Lemma remote_names_after prefix keys (L : gset string) :
  flat_under prefix keys →
  (∀ n, n ∈ L → Py.contains "/" n = false) →
  let R := remote_names prefix keys in
  remote_names prefix
    ((set_map (s3_key_of prefix) (L ∖ R) ∪ keys)
     ∖ set_map (s3_key_of prefix) (R ∖ L)) = L.
Proof.
  intros Hflat HL R. apply set_eq. intros x.
  unfold remote_names at 1. rewrite elem_of_map. split.
  - intros (k & -> & [Hk Hpre]%keys_under_elem).
    apply elem_of_difference in Hk as [Hk Hnd].
    apply elem_of_union in Hk as [Hk|Hk].
    + apply elem_of_map in Hk as (n & -> & [Hn _]%elem_of_difference).
      by rewrite key_name_s3_key_of by auto.
    + assert (k ∈ keys_under prefix keys) as Hku
        by by apply keys_under_elem.
      destruct (Hflat k Hku) as (n & -> & Hn).
      rewrite key_name_s3_key_of by done.
      destruct (decide (n ∈ L)) as [|HnL]; [done|].
      exfalso. apply Hnd, elem_of_map. exists n. split; [done|].
      apply elem_of_difference. split; [|done].
      apply elem_of_map. exists (s3_key_of prefix n).
      by rewrite key_name_s3_key_of.
  - intros Hx. exists (s3_key_of prefix x).
    rewrite key_name_s3_key_of by auto. split; [done|].
    apply keys_under_elem. split; [|apply startswith_s3_key_of].
    apply elem_of_difference. split.
    + destruct (decide (x ∈ R)) as [HxR|HxR].
      * apply elem_of_union; right.
        apply elem_of_map in HxR as (k & Hxk & Hk).
        destruct (Hflat k Hk) as (n & -> & Hn).
        rewrite key_name_s3_key_of in Hxk by done. subst n.
        by apply keys_under_elem in Hk as [? _].
      * apply elem_of_union; left. apply elem_of_map. exists x.
        split; [done|]. by apply elem_of_difference.
    + intros (n & Heq & [_ HnL]%elem_of_difference)%elem_of_map.
      apply s3_key_of_inj in Heq. by subst n.
Qed.

End Inventories.

(** ** Whole cycles *)

Lemma upload_calls_cons ev t :
  upload_calls (ev :: t) = upload_calls [ev] ++ upload_calls t.
Proof. apply (upload_calls_app [ev] t). Qed.

Lemma delete_calls_cons ev t :
  delete_calls (ev :: t) = delete_calls [ev] ++ delete_calls t.
Proof. apply (delete_calls_app [ev] t). Qed.

Section Cycles.

Context (env : Env).

(** A cycle whose listing gives back the local names makes no upload and
    no delete, and ends after the listing. *)
Lemma synced_cycle rec name names s r s' t :
  s3_write rec = true →
  s3_folder_name rec = Some name →
  fs_listdir env (folder rec) = Ok names →
  (∀ c objs s1 t1,
     try_list env rec (Py.strip name) s = (Ok (Some (c, objs)), s1, t1) →
     s3_file_names objs = local_file_set env (folder rec) names) →
  sync_record env rec s = (r, s', t) →
  r = Ok tt ∧ upload_calls t = [] ∧ delete_calls t = []
  ∧ records s' = records s ∧ store s' = store s
  ∧ ∃ r1 t1, try_list env rec (Py.strip name) s = (r1, s', t1)
             ∧ t = EvListdir (folder rec) None :: t1.
Proof.
  intros Hw Hn Hls Hsame Hrun.
  rewrite (sync_record_run env rec name s Hw Hn), Hls in Hrun.
  destruct (try_list env rec (Py.strip name) s) as [[r1 s1] t1] eqn:E1.
  pose proof (try_list_inv env _ _ _ _ _ _ E1) as (Hr1 & Hs1 & Hu1 & Hd1 & Hcase).
  destruct r1 as [[[c objs]|]|e]; [| |done].
  - rewrite (Hsame c objs s1 t1 eq_refl) in Hrun.
    unfold sync_files in Hrun.
    rewrite difference_diag_L, set_iter_empty in Hrun.
    unfold bind in Hrun. rewrite !for_each_nil in Hrun. simpl in Hrun.
    simplify_eq. rewrite app_nil_r.
    split; [done|].
    rewrite upload_calls_cons, delete_calls_cons, Hu1, Hd1.
    eauto 10.
  - simplify_eq. split; [done|].
    rewrite upload_calls_cons, delete_calls_cons, Hu1, Hd1.
    eauto 10.
Qed.

(** A cycle in which no call fails, on a bucket whose keys under the
    prefix are flat and fit one page, leaves under the prefix the names
    of the local files. *)
Lemma successful_cycle rec name names b keys s r s' t :
  s3_write rec = true →
  s3_folder_name rec = Some name →
  fs_listdir env (folder rec) = Ok names →
  s3_bucket_name rec = Some b →
  store s !! b = Some keys →
  one_page env (Py.strip name) keys →
  flat_under (Py.strip name) keys →
  sync_record env rec s = (r, s', t) →
  calls_ok t →
  r = Ok tt ∧ records s' = records s
  ∧ ∃ keys', store s' !! b = Some keys'
      ∧ remote_names (Py.strip name) keys'
          = local_file_set env (folder rec) names.
Proof.
  intros Hw Hn Hls Hb Hkeys Hpage Hflat Hrun Hok.
  rewrite (sync_record_run env rec name s Hw Hn), Hls in Hrun.
  destruct (try_list env rec (Py.strip name) s) as [[r1 s1] t1] eqn:E1.
  pose proof (try_list_inv env _ _ _ _ _ _ E1) as (Hr1 & Hs1 & _ & _ & Hcase).
  destruct r1 as [[[c objs]|]|e]; [| |done].
  - destruct Hcase as (-> & b' & keys0 & Hb' & Hkeys' & ->).
    assert (b' = b) as -> by congruence.
    assert (keys0 = keys) as -> by congruence.
    rewrite (s3_file_names_one_page env _ _ Hpage) in Hrun.
    destruct (sync_files _ _ _ _ _ _ _ _) as [[r2 s2] t2] eqn:E2.
    simplify_eq.
    apply calls_ok_cons in Hok as [_ Hok].
    change (calls_ok ([EvClient (s3_access_key rec) (s3_secret_key rec)
                         (s3_region rec) None;
                       EvListObjects (s3_bucket_name rec)
                         (Some (Py.strip name +:+ "/")) None] ++ t2)) in Hok.
    apply calls_ok_app in Hok as [_ Hok].
    apply sync_files_inv in E2 as (Hr2 & _ & _ & _ & Hok2).
    destruct (Hok2 Hok) as (-> & _ & Hst).
    split; [done|]. split; [congruence|].
    eexists. split.
    + apply (Hst b keys Hb). by rewrite Hs1.
    + apply remote_names_after; [done|].
      intros n. apply local_file_set_no_sep.
  - simplify_eq. exfalso. apply Hcase.
    by apply calls_ok_cons in Hok as [_ Hok].
Qed.

(** A listing that does not fit one page leaves out a key. *)
Lemma page_misses_key prefix keys :
  ¬ one_page env prefix keys →
  ∃ k, k ∈ keys_under prefix keys
       ∧ k ∉ take (max_keys env)
               (matching_keys (Some (prefix +:+ "/")) keys).
Proof.
  intros Hgt. unfold one_page in Hgt.
  rewrite <- matching_keys_length in Hgt.
  pose proof (matching_keys_NoDup prefix keys) as Hnd.
  rewrite <- (take_drop (max_keys env)
                (matching_keys (Some (prefix +:+ "/")) keys)) in Hnd.
  apply NoDup_app in Hnd as (_ & Hdisj & _).
  destruct (drop (max_keys env)
              (matching_keys (Some (prefix +:+ "/")) keys))
    as [|k rest] eqn:Ed.
  - apply (f_equal length) in Ed. rewrite length_drop in Ed.
    simpl in Ed. lia.
  - exists k. split.
    + apply matching_keys_elem.
      rewrite <- (take_drop (max_keys env)). apply elem_of_app; right.
      rewrite Ed. apply elem_of_cons; by left.
    + intros Hk. apply (Hdisj k Hk). apply elem_of_cons; by left.
Qed.

(** A listing call that goes through returns the first page. *)
Lemma list_s3_objects_run c b prefix keys s :
  store s !! b = Some keys →
  (pop_fault s).1 = None →
  list_s3_objects env c (Some b) prefix s
    = (Ok ((λ k, {| Key := k |}) <$>
             take (max_keys env)
               (matching_keys (Some (prefix +:+ "/")) keys)),
       (pop_fault s).2,
       [EvListObjects (Some b) (Some (prefix +:+ "/")) None]).
Proof.
  intros Hkeys Hfault.
  unfold list_s3_objects, list_objects_v2, remote_call, bind, ret.
  destruct (pop_fault s) as [f s1] eqn:Ef. simpl in Hfault. subst f.
  assert (store s1 = store s) as Hs1.
  { unfold pop_fault in Ef. destruct (faults s); by simplify_eq. }
  rewrite Hs1, Hkeys. simpl.
  by destruct (take _ _).
Qed.

End Cycles.

(** ** The properties of the entry points *)

Section Claims.

Context (env : Env).

(** C7 (as amended).  The name computed for a listed key is what follows
    the last ['/'] of the key.  For a key ["{prefix}/{rest}"] it is [rest]
    when [rest] has no ['/'] of its own; in general it is the last segment
    of [rest]. *)
Theorem key_name_strips_flat_prefix (prefix rest : string) :
  Py.contains "/" rest = false →
  key_name {| Key := prefix +:+ "/" +:+ rest |} = rest
  ∧ ∀ deeper, key_name {| Key := prefix +:+ "/" +:+ deeper |}
              = Py.after_rfind "/" deeper.
Proof.
  intros Hrest. split.
  - by apply key_name_s3_key_of.
  - intros deeper. rewrite key_name_after_rfind.
    change ("/" +:+ deeper) with (String "/" deeper).
    apply after_rfind_app_sep.
Qed.

(** C5.  When the scan of the local folder of an enabled record fails,
    the cycle of that record ends there: the failure is logged, no call
    reaches the remote store, the state is as it was, and the loop goes on
    with the records that follow exactly as it would have run on them. *)
Theorem scan_failure_skips_record (rec : db_backup) (rest : list db_backup)
    (name : string) (e : exn) (s : State) :
  s3_write rec = true →
  s3_folder_name rec = Some name →
  fs_listdir env (folder rec) = Raise e →
  let t := [EvListdir (folder rec) (Some e);
            EvLog ERROR (scan_error_line (folder rec) e)] in
  sync_record env rec s = (Ok tt, s, t)
  ∧ List.filter is_remote_call t = []
  ∧ for_each (rec :: rest) (sync_record env) s
      = let '(r, s', t') := for_each rest (sync_record env) s in
        (r, s', t ++ t').
Proof.
  intros Hw Hn Hls t.
  assert (sync_record env rec s = (Ok tt, s, t)) as Hrun.
  { rewrite (sync_record_run env rec name s Hw Hn). by rewrite Hls. }
  split; [done|]. split; [done|].
  by rewrite for_each_cons, Hrun.
Qed.

(** C9.  An enabled record whose [s3_folder_name] is unset makes
    [schedule_backup] raise.  When the loop comes to that record, what is
    raised is the [AttributeError] of [strip]; the state and the trace are
    those the records before it left, so nothing is scanned or called for
    the record, and the records after it are not processed.  (A run
    that an earlier record has already ended with an exception stays so
    ended.) *)
Theorem unset_folder_name_aborts_run (pre post : list db_backup)
    (rec : db_backup) (s s0 : State) (t0 : list event) :
  s3_write rec = true →
  s3_folder_name rec = None →
  super_schedule_backup env s = (Ok tt, s0, t0) →
  records s0 = pre ++ rec :: post →
  (∃ e s' t, schedule_backup env s = (Raise e, s', t))
  ∧ schedule_backup env s
      = (let '(r1, s1, t1) := for_each pre (sync_record env) s0 in
         (match r1 with
          | Ok _ => Raise strip_error
          | Raise e => Raise e
          end, s1, t0 ++ t1)).
Proof.
  intros Hw Hn Hsuper Hrecs.
  assert (schedule_backup env s =
          let '(r, s', t) :=
            for_each (pre ++ rec :: post) (sync_record env) s0 in
          (r, s', t0 ++ t)) as Hrun.
  { unfold schedule_backup, bind, search_all. rewrite Hsuper. simpl.
    rewrite Hrecs.
    by destruct (for_each _ _ s0) as [[??]?]. }
  rewrite Hrun, for_each_app.
  destruct (for_each pre (sync_record env) s0) as [[[[]|e] s1] t1].
  - rewrite for_each_cons, (sync_record_unset env rec s1 Hw Hn).
    rewrite app_nil_r. eauto 10.
  - eauto 10.
Qed.

(** C8 (as amended).  The connection test of a record never raises: it
    returns a notification.  It builds one client and, when that returns,
    makes one [list_objects_v2] call on the bucket of the record, without
    a prefix.  When both calls return, the notification is the success
    one, and the bucket exists; when one of them raises, and so whenever
    the first call is made to fail, it is the failure notification of the
    exception raised: its type is [danger] and its message is the text of
    the exception, which is empty exactly when the exception has no text.
    The stored records and the buckets are left as they were. *)
Theorem connection_test_outcome (rec : db_backup) (s s' : State)
    (r : result notification) (t : list event) :
  action_test_s3_connection env [rec] s = (r, s', t) →
  records s' = records s ∧ store s' = store s
  ∧ match boto3_client (s3_access_key rec) (s3_secret_key rec)
            (s3_region rec) s with
    | (Raise err, _, _) =>
        r = Ok (failure_notification err)
        ∧ t = [EvClient (s3_access_key rec) (s3_secret_key rec)
                 (s3_region rec) (Some err)]
    | (Ok c, s1, _) =>
        match list_objects_v2 env c (s3_bucket_name rec) None s1 with
        | (Raise err, _, _) =>
            r = Ok (failure_notification err)
            ∧ t = [EvClient (s3_access_key rec) (s3_secret_key rec)
                     (s3_region rec) None;
                   EvListObjects (s3_bucket_name rec) None (Some err)]
        | (Ok _, _, _) =>
            r = Ok success_notification
            ∧ t = [EvClient (s3_access_key rec) (s3_secret_key rec)
                     (s3_region rec) None;
                   EvListObjects (s3_bucket_name rec) None None]
            ∧ ∃ b, s3_bucket_name rec = Some b ∧ is_Some (store s !! b)
        end
    end
  ∧ (∀ err fs, faults s = Some err :: fs →
       r = Ok (failure_notification err))
  ∧ ∀ err, failure_notification err ≠ success_notification
           ∧ n_message (failure_notification err) = str err
           ∧ n_msg_type (failure_notification err) = "danger"
           ∧ (n_message (failure_notification err) = "" ↔ str err = "").
Proof.
  unfold action_test_s3_connection, ensure_one, get_s3_client.
  unfold bind at 1. unfold ret at 1. unfold bind at 1.
  unfold try_except, bind. intros H.
  assert (∀ err fs, faults s = Some err :: fs →
            boto3_client (s3_access_key rec) (s3_secret_key rec)
              (s3_region rec) s
            = (Raise err, set_faults fs s,
               [EvClient (s3_access_key rec) (s3_secret_key rec)
                  (s3_region rec) (Some err)])) as Hinj.
  { intros err fs Hf. unfold boto3_client, remote_call, pop_fault.
    by rewrite Hf. }
  destruct (boto3_client _ _ _ _) as [[r1 s1] t1] eqn:E1.
  pose proof E1 as E1'.
  apply boto3_client_inv in E1 as (Hr1 & Hs1 & ->).
  assert (∀ err, failure_notification err ≠ success_notification
                 ∧ n_message (failure_notification err) = str err
                 ∧ n_msg_type (failure_notification err) = "danger"
                 ∧ (n_message (failure_notification err) = ""
                    ↔ str err = "")) as Hnote.
  { intros err. by repeat split. }
  destruct r1 as [c|e]; simpl in H.
  - destruct (list_objects_v2 _ _ _ _ _) as [[r2 s2] t2] eqn:E2.
    apply list_objects_v2_inv in E2 as (Hr2 & Hs2 & -> & Hresp).
    destruct r2 as [resp|e]; simpl in H.
    + simplify_eq/=. do 2 (split; [congruence|]).
      split; [|split; [|done]].
      * do 2 (split; [done|]).
        destruct (Hresp resp eq_refl) as (b & keys & Hb & Hk & _).
        exists b. split; [done|]. exists keys. by rewrite <- Hs1.
      * intros err fs Hf. by specialize (Hinj err fs Hf).
    + rewrite isinstance_Exception in H. simplify_eq/=.
      do 2 (split; [congruence|]). split; [done|]. split; [|done].
      intros err fs Hf. by specialize (Hinj err fs Hf).
  - rewrite isinstance_Exception in H. simplify_eq/=.
    do 2 (split; [done|]). split; [done|]. split; [|done].
    intros err fs Hf. specialize (Hinj err fs Hf). by simplify_eq.
Qed.

(** C1.  In the cycle of a record whose scan and listing succeed, the loop
    body runs the upload turn over [local ∖ remote] and then the delete
    turn over [remote ∖ local], the two inventories being sets of base
    names.  So the uploads made are uploads of names of the first set, in
    the order the set is iterated, and the deletes are deletes of the
    second; when no call fails they are those of every name of each set,
    once.  When the two inventories are equal the cycle makes no upload
    and no delete, and ends after the listing. *)
Theorem plan_is_set_difference (rec : db_backup) (name : string)
    (names : list string) (c : s3_client) (objs : list s3_object)
    (s s1 s' : State) (t1 t : list event) (r : result unit) :
  s3_write rec = true →
  s3_folder_name rec = Some name →
  fs_listdir env (folder rec) = Ok names →
  try_list env rec (Py.strip name) s = (Ok (Some (c, objs)), s1, t1) →
  sync_record env rec s = (r, s', t) →
  let local_set := local_file_set env (folder rec) names in
  let remote_set := s3_file_names objs in
  let uploads := upload_of rec (folder rec) (Py.strip name) in
  let deletes := delete_of rec (Py.strip name) in
  (r, s', t)
    = (let '(r2, s2, t2) :=
         (for_each (set_iter env (local_set ∖ remote_set))
            (upload_missing env rec (folder rec) (Py.strip name)) ;;
          for_each (set_iter env (remote_set ∖ local_set))
            (delete_extra rec c (Py.strip name))) s1 in
       (r2, s2, EvListdir (folder rec) None :: t1 ++ t2))
  ∧ sublist (upload_calls t)
      (uploads <$> set_iter env (local_set ∖ remote_set))
  ∧ delete_calls t
      `prefix_of` (deletes <$> set_iter env (remote_set ∖ local_set))
  ∧ (calls_ok t →
       r = Ok tt
       ∧ upload_calls t ≡ₚ uploads <$> elements (local_set ∖ remote_set)
       ∧ delete_calls t ≡ₚ deletes <$> elements (remote_set ∖ local_set))
  ∧ (local_set = remote_set →
       local_set ∖ remote_set = ∅ ∧ remote_set ∖ local_set = ∅
       ∧ r = Ok tt ∧ upload_calls t = [] ∧ delete_calls t = []
       ∧ s' = s1 ∧ t = EvListdir (folder rec) None :: t1).
Proof.
  intros Hw Hn Hls Hlist Hrun local_set remote_set uploads deletes.
  pose proof Hrun as Hrun'.
  rewrite (sync_record_run env rec name s Hw Hn), Hls, Hlist in Hrun'.
  fold local_set remote_set in Hrun'.
  split; [by rewrite <- Hrun'|].
  pose proof (try_list_inv env _ _ _ _ _ _ Hlist)
    as (_ & _ & Hu1 & Hd1 & _).
  destruct (sync_files _ _ _ _ _ _ _ _) as [[r2 s2] t2] eqn:E2.
  simplify_eq.
  rewrite upload_calls_cons, delete_calls_cons, upload_calls_app,
    delete_calls_app, Hu1, Hd1. simpl.
  pose proof (sync_files_inv env _ _ _ _ _ _ _ _ _ _ E2)
    as (_ & Hsub & Hpre & Hall & Hok2).
  do 2 (split; [done|]). split.
  - intros Hok. apply calls_ok_cons in Hok as [_ Hok].
    apply calls_ok_app in Hok as [_ Hok].
    destruct (Hok2 Hok) as (-> & -> & _). rewrite (Hall eq_refl).
    split; [done|].
    split; apply fmap_Permutation, set_iter_perm.
  - intros Heq. unfold sync_files in E2. rewrite Heq in E2.
    rewrite Heq, difference_diag_L. do 2 (split; [done|]).
    rewrite difference_diag_L, set_iter_empty in E2.
    unfold bind in E2. rewrite !for_each_nil in E2. simpl in E2.
    simplify_eq. by rewrite app_nil_r.
Qed.

(** C3 (as amended).  When the cycle of a record runs without a failing
    call, on a bucket whose keys under the prefix fit one page of the
    listing and have no ['/'] after the prefix, the names of the keys
    under the prefix are afterwards the names of the local files. *)
Theorem remote_mirrors_local_after_success (rec : db_backup)
    (name b : string) (names : list string) (keys : gset string)
    (s s' : State) (r : result unit) (t : list event) :
  s3_write rec = true →
  s3_folder_name rec = Some name →
  fs_listdir env (folder rec) = Ok names →
  s3_bucket_name rec = Some b →
  store s !! b = Some keys →
  one_page env (Py.strip name) keys →
  flat_under (Py.strip name) keys →
  sync_record env rec s = (r, s', t) →
  calls_ok t →
  r = Ok tt
  ∧ ∃ keys', store s' !! b = Some keys'
      ∧ remote_names (Py.strip name) keys'
          = local_file_set env (folder rec) names.
Proof.
  intros Hw Hn Hls Hb Hkeys Hpage Hflat Hrun Hok.
  destruct (successful_cycle env rec name names b keys s r s' t)
    as (Hr & _ & Hkeys'); auto.
Qed.

(** C6 (as amended).  When a first cycle runs without a failing call, on
    a bucket whose keys under the prefix are flat, and both its listing
    and the next one fit one page, a second cycle right after it makes no
    upload and no delete, and leaves the buckets as they are. *)
Theorem second_cycle_is_idle (rec : db_backup) (name b : string)
    (names : list string) (keys keys1 : gset string)
    (s s1 s2 : State) (r1 r2 : result unit) (t1 t2 : list event) :
  s3_write rec = true →
  s3_folder_name rec = Some name →
  fs_listdir env (folder rec) = Ok names →
  s3_bucket_name rec = Some b →
  store s !! b = Some keys →
  one_page env (Py.strip name) keys →
  flat_under (Py.strip name) keys →
  sync_record env rec s = (r1, s1, t1) →
  calls_ok t1 →
  store s1 !! b = Some keys1 →
  one_page env (Py.strip name) keys1 →
  sync_record env rec s1 = (r2, s2, t2) →
  r2 = Ok tt ∧ upload_calls t2 = [] ∧ delete_calls t2 = []
  ∧ store s2 = store s1.
Proof.
  intros Hw Hn Hls Hb Hkeys Hpage Hflat Hrun1 Hok1 Hkeys1 Hpage1 Hrun2.
  destruct (successful_cycle env rec name names b keys s r1 s1 t1)
    as (_ & _ & keys1' & Hk1' & Hmirror); auto.
  assert (keys1' = keys1) as -> by congruence.
  destruct (synced_cycle env rec name names s1 r2 s2 t2)
    as (Hr2 & Hu2 & Hd2 & _ & Hs2 & _); auto.
  intros c objs s3 t3 Hlist.
  apply try_list_inv in Hlist as (_ & _ & _ & _ & _ & b' & keys' & Hb' & Hk' & ->).
  assert (b' = b) as -> by congruence.
  assert (keys' = keys1) as -> by congruence.
  by rewrite (s3_file_names_one_page env _ _ Hpage1).
Qed.

(** C4 (as amended).  A listing call that goes through returns the first
    page of the keys of the bucket that start with ["{prefix}/"]: at most
    [max_keys] of them, in the order of the service, and the empty list,
    not an error, when there is none.  It holds every such key when they
    fit one page, and leaves one out when they do not: no further page is
    asked for. *)
Theorem listing_is_first_page (c : s3_client) (b prefix : string)
    (keys : gset string) (s : State) :
  store s !! b = Some keys →
  (pop_fault s).1 = None →
  let page := take (max_keys env)
                (matching_keys (Some (prefix +:+ "/")) keys) in
  list_s3_objects env c (Some b) prefix s
    = (Ok ((λ k, {| Key := k |}) <$> page), (pop_fault s).2,
       [EvListObjects (Some b) (Some (prefix +:+ "/")) None])
  ∧ (∀ k, k ∈ page → k ∈ keys ∧ Py.startswith (prefix +:+ "/") k = true)
  ∧ length page = min (max_keys env) (size (keys_under prefix keys))
  ∧ (keys_under prefix keys = ∅ → page = [])
  ∧ (one_page env prefix keys → ∀ k, k ∈ keys_under prefix keys → k ∈ page)
  ∧ (¬ one_page env prefix keys →
       ∃ k, k ∈ keys_under prefix keys ∧ k ∉ page).
Proof.
  intros Hkeys Hfault page. split; [|split; [|split; [|split; [|split]]]].
  - by apply list_s3_objects_run.
  - intros k Hk%subseteq_take. by apply matching_keys_elem, keys_under_elem in Hk.
  - unfold page. by rewrite length_take, matching_keys_length.
  - intros Hempty. unfold page.
    assert (matching_keys (Some (prefix +:+ "/")) keys = []) as ->.
    { apply length_zero_iff_nil.
      by rewrite matching_keys_length, Hempty, size_empty. }
    apply take_nil.
  - intros Hpage k Hk. unfold page.
    rewrite (take_matching_keys env _ _ Hpage).
    by apply matching_keys_elem.
  - apply page_misses_key.
Qed.

(** The folder marker.  When the listing of a cycle holds the key
    ["{prefix}/"], the name computed for it is the empty string, which is
    no local file name; so the empty name is in the set to delete, and a
    cycle that comes to its end has called [delete_object] on the key
    ["{prefix}/"]. *)
Theorem folder_marker_is_deleted (rec : db_backup) (name : string)
    (names : list string) (c : s3_client) (objs : list s3_object)
    (s s1 s' : State) (t1 t : list event) (r : result unit) :
  s3_write rec = true →
  s3_folder_name rec = Some name →
  fs_listdir env (folder rec) = Ok names →
  entries_are_names env (folder rec) →
  try_list env rec (Py.strip name) s = (Ok (Some (c, objs)), s1, t1) →
  {| Key := Py.strip name +:+ "/" |} ∈ objs →
  sync_record env rec s = (r, s', t) →
  let local_set := local_file_set env (folder rec) names in
  let remote_set := s3_file_names objs in
  key_name {| Key := Py.strip name +:+ "/" |} = ""
  ∧ ("" ∉ local_set)
  ∧ ("" ∈ remote_set ∖ local_set)
  ∧ (r = Ok tt →
       (s3_bucket_name rec, Py.strip name +:+ "/") ∈ delete_calls t).
Proof.
  intros Hw Hn Hls Hwf Hlist Hobj Hrun local_set remote_set.
  assert (key_name {| Key := Py.strip name +:+ "/" |} = "") as Hname.
  { by apply (key_name_s3_key_of (Py.strip name) ""). }
  assert ("" ∉ local_set) as Hnot.
  { intros Hin.
    by destruct (local_file_set_names env _ _ _ Hwf Hls Hin). }
  assert ("" ∈ remote_set ∖ local_set) as Hplan.
  { apply elem_of_difference. split; [|done].
    unfold remote_set, s3_file_names.
    apply elem_of_list_to_set, list_elem_of_fmap.
    by exists {| Key := Py.strip name +:+ "/" |}. }
  do 3 (split; [done|]). intros ->.
  rewrite (sync_record_run env rec name s Hw Hn), Hls, Hlist in Hrun.
  fold local_set remote_set in Hrun.
  destruct (sync_files _ _ _ _ _ _ _ _) as [[r2 s2] t2] eqn:E2.
  simplify_eq.
  apply sync_files_inv in E2 as (_ & _ & _ & Hall & _).
  rewrite delete_calls_cons, delete_calls_app, (Hall eq_refl).
  apply elem_of_app; right. apply elem_of_app; right.
  apply list_elem_of_fmap. exists "". split; [done|].
  by apply elem_of_set_iter.
Qed.

End Claims.

(** ** The properties at work on the concrete installation *)

Ltac by_computation := apply (bool_decide_unpack _); vm_compute; exact I.

Lemma key_name_witness :
  Py.contains "/" "b.sql" = false
  ∧ (key_name {| Key := "prod" +:+ "/" +:+ "b.sql" |} = "b.sql"
     ∧ ∀ deeper, key_name {| Key := "prod" +:+ "/" +:+ deeper |}
                 = Py.after_rfind "/" deeper).
Proof.
  split; [reflexivity|].
  apply (key_name_strips_flat_prefix "prod" "b.sql"). reflexivity.
Defined.

(** The name of a key that lies deeper is not what follows the prefix. *)
Lemma key_name_of_nested_key :
  key_name {| Key := "prod" +:+ "/" +:+ "2024/c.sql" |} = "c.sql"
  ∧ key_name {| Key := "prod" +:+ "/" +:+ "2024/c.sql" |} ≠ "2024/c.sql".
Proof. split; [reflexivity|]. vm_compute. discriminate. Qed.

Lemma scan_failure_witness :
  s3_write Examples.lost = true
  ∧ s3_folder_name Examples.lost = Some "gone"
  ∧ fs_listdir Examples.env (folder Examples.lost)
      = Raise (Exn FileNotFoundError "[Errno 2] No such file or directory")
  ∧ (let t := [EvListdir "/odoo/gone"
                 (Some (Exn FileNotFoundError
                          "[Errno 2] No such file or directory"));
               EvLog ERROR "Folder not found: /odoo/gone"] in
     sync_record Examples.env Examples.lost Examples.st
       = (Ok tt, Examples.st, t)
     ∧ List.filter is_remote_call t = []
     ∧ for_each [Examples.lost; Examples.target]
         (sync_record Examples.env) Examples.st
       = let '(r, s', t') :=
           for_each [Examples.target] (sync_record Examples.env)
             Examples.st in
         (r, s', t ++ t')).
Proof.
  do 3 (split; [reflexivity|]).
  apply (scan_failure_skips_record Examples.env Examples.lost
           [Examples.target] "gone"); reflexivity.
Defined.

Lemma unset_folder_name_witness :
  s3_write Examples.unnamed = true
  ∧ s3_folder_name Examples.unnamed = None
  ∧ super_schedule_backup Examples.env Examples.st_three
      = (Ok tt, Examples.st_three, [])
  ∧ records Examples.st_three
      = [Examples.lost] ++ Examples.unnamed :: [Examples.target]
  ∧ ((∃ e s' t,
        schedule_backup Examples.env Examples.st_three = (Raise e, s', t))
     ∧ schedule_backup Examples.env Examples.st_three
         = (let '(r1, s1, t1) :=
              for_each [Examples.lost] (sync_record Examples.env)
                Examples.st_three in
            (match r1 with
             | Ok _ => Raise strip_error
             | Raise e => Raise e
             end, s1, [] ++ t1))).
Proof.
  do 4 (split; [reflexivity|]).
  apply (unset_folder_name_aborts_run Examples.env [Examples.lost]
           [Examples.target] Examples.unnamed Examples.st_three
           Examples.st_three []); reflexivity.
Defined.

(** The run of [st_three], spelled out: the first record is skipped for its
    folder, the second ends the run, the third is never looked at. *)
Example unset_folder_name_run :
  schedule_backup Examples.env Examples.st_three
  = (Raise strip_error, Examples.st_three,
     [EvListdir "/odoo/gone"
        (Some (Exn FileNotFoundError "[Errno 2] No such file or directory"));
      EvLog ERROR "Folder not found: /odoo/gone"]).
Proof. vm_compute. reflexivity. Qed.

Lemma connection_test_witness :
  let run := action_test_s3_connection Examples.env [Examples.target]
               Examples.st_denied in
  action_test_s3_connection Examples.env [Examples.target] Examples.st_denied
    = (run.1.1, run.1.2, run.2)
  ∧ (records run.1.2 = records Examples.st_denied
     ∧ store run.1.2 = store Examples.st_denied
     ∧ match boto3_client (s3_access_key Examples.target)
               (s3_secret_key Examples.target) (s3_region Examples.target)
               Examples.st_denied with
       | (Raise err, _, _) =>
           run.1.1 = Ok (failure_notification err)
           ∧ run.2 = [EvClient (s3_access_key Examples.target)
                        (s3_secret_key Examples.target)
                        (s3_region Examples.target) (Some err)]
       | (Ok c, s1, _) =>
           match list_objects_v2 Examples.env c
                   (s3_bucket_name Examples.target) None s1 with
           | (Raise err, _, _) =>
               run.1.1 = Ok (failure_notification err)
               ∧ run.2 = [EvClient (s3_access_key Examples.target)
                            (s3_secret_key Examples.target)
                            (s3_region Examples.target) None;
                          EvListObjects (s3_bucket_name Examples.target)
                            None (Some err)]
           | (Ok _, _, _) =>
               run.1.1 = Ok success_notification
               ∧ run.2 = [EvClient (s3_access_key Examples.target)
                            (s3_secret_key Examples.target)
                            (s3_region Examples.target) None;
                          EvListObjects (s3_bucket_name Examples.target)
                            None None]
               ∧ ∃ b, s3_bucket_name Examples.target = Some b
                      ∧ is_Some (store Examples.st_denied !! b)
           end
       end
     ∧ (∀ err fs, faults Examples.st_denied = Some err :: fs →
          run.1.1 = Ok (failure_notification err))
     ∧ ∀ err, failure_notification err ≠ success_notification
              ∧ n_message (failure_notification err) = str err
              ∧ n_msg_type (failure_notification err) = "danger"
              ∧ (n_message (failure_notification err) = "" ↔ str err = "")).
Proof.
  split; [reflexivity|].
  apply (connection_test_outcome Examples.env Examples.target
           Examples.st_denied). reflexivity.
Defined.

(** An exception raised without arguments has no text: [str(err)] is the
    empty string, and so is the message of the notification.  Here the
    listing call raises such an exception. *)
Lemma connection_test_empty_message :
  let silent := Exn Exception "" in
  let run := action_test_s3_connection Examples.env [Examples.target]
               (set_faults [None; Some silent] Examples.st) in
  run.1.1 = Ok (failure_notification silent)
  ∧ run.2 = [EvClient (Some "AK") (Some "SK") (Some "eu-west-1") None;
             EvListObjects (Some "bk") None (Some silent)]
  ∧ n_msg_type (failure_notification silent) = "danger"
  ∧ n_message (failure_notification silent) = "".
Proof. intros silent run. repeat split; vm_compute; reflexivity. Qed.

(** The two outcomes of the connection test, spelled out. *)
Example connection_test_runs :
  action_test_s3_connection Examples.env [Examples.target] Examples.st
    = (Ok success_notification, Examples.st,
       [EvClient (Some "AK") (Some "SK") (Some "eu-west-1") None;
        EvListObjects (Some "bk") None None])
  ∧ (action_test_s3_connection Examples.env [Examples.target]
       Examples.st_denied).1.1
    = Ok {| n_type := "ir.actions.client";
            n_tag := "display_notification";
            n_title := "Connection Test Failed!";
            n_message := "An error occurred (InvalidAccessKeyId) when calling the ListObjectsV2 operation: The AWS Access Key Id you provided does not exist in our records.";
            n_msg_type := "danger";
            n_sticky := false |}.
Proof. split; vm_compute; reflexivity. Qed.

Lemma plan_witness :
  let run := sync_record Examples.env Examples.target Examples.st in
  let listed := [EvClient (Some "AK") (Some "SK") (Some "eu-west-1") None;
                 EvListObjects (Some "bk") (Some "prod/") None] in
  let objs := [{| Key := "prod/b.sql" |}; {| Key := "prod/c.sql" |}] in
  let local_set :=
    local_file_set Examples.env "/odoo/backups"
      ["a.sql"; "b.sql"; "filestore"] in
  let remote_set := s3_file_names objs in
  let uploads := upload_of Examples.target "/odoo/backups" "prod" in
  let deletes := delete_of Examples.target "prod" in
  s3_write Examples.target = true
  ∧ s3_folder_name Examples.target = Some " prod "
  ∧ fs_listdir Examples.env "/odoo/backups"
      = Ok ["a.sql"; "b.sql"; "filestore"]
  ∧ try_list Examples.env Examples.target "prod" Examples.st
      = (Ok (Some (Examples.client, objs)), Examples.st, listed)
  ∧ sync_record Examples.env Examples.target Examples.st
      = (run.1.1, run.1.2, run.2)
  ∧ ((run.1.1, run.1.2, run.2)
       = (let '(r2, s2, t2) :=
            (for_each (set_iter Examples.env (local_set ∖ remote_set))
               (upload_missing Examples.env Examples.target "/odoo/backups"
                  "prod") ;;
             for_each (set_iter Examples.env (remote_set ∖ local_set))
               (delete_extra Examples.target Examples.client "prod"))
              Examples.st in
          (r2, s2, EvListdir "/odoo/backups" None :: listed ++ t2))
     ∧ sublist (upload_calls run.2)
         (uploads <$> set_iter Examples.env (local_set ∖ remote_set))
     ∧ delete_calls run.2
         `prefix_of` (deletes <$> set_iter Examples.env
                                    (remote_set ∖ local_set))
     ∧ (calls_ok run.2 →
          run.1.1 = Ok tt
          ∧ upload_calls run.2
              ≡ₚ uploads <$> elements (local_set ∖ remote_set)
          ∧ delete_calls run.2
              ≡ₚ deletes <$> elements (remote_set ∖ local_set))
     ∧ (local_set = remote_set →
          local_set ∖ remote_set = ∅ ∧ remote_set ∖ local_set = ∅
          ∧ run.1.1 = Ok tt ∧ upload_calls run.2 = []
          ∧ delete_calls run.2 = []
          ∧ run.1.2 = Examples.st
          ∧ run.2 = EvListdir "/odoo/backups" None :: listed)).
Proof.
  intros run listed objs local_set remote_set uploads deletes.
  do 3 (split; [reflexivity|]).
  split; [vm_compute; reflexivity|]. split; [reflexivity|].
  apply (plan_is_set_difference Examples.env Examples.target " prod "
           ["a.sql"; "b.sql"; "filestore"] Examples.client objs
           Examples.st Examples.st run.1.2 listed run.2 run.1.1);
    reflexivity.
Defined.

(** The example of the specification: [a.sql] is uploaded, [c.sql] is
    deleted, and the key of the other prefix is left alone. *)
Example plan_of_the_specification :
  let run := sync_record Examples.env Examples.target Examples.st in
  run.1.1 = Ok tt
  ∧ upload_calls run.2 = [("/odoo/backups/a.sql", Some "bk", "prod/a.sql")]
  ∧ delete_calls run.2 = [(Some "bk", "prod/c.sql")]
  ∧ store run.1.2 !! "bk"
      = Some {[ "prod/a.sql"; "prod/b.sql"; "other/x.sql" ]}.
Proof.
  intros run. do 3 (split; [vm_compute; reflexivity|]). by_computation.
Qed.

(** Equal inventories: the cycle ends after the listing. *)
Example synced_bucket_is_left_alone :
  sync_record Examples.env Examples.target Examples.st_synced
  = (Ok tt, Examples.st_synced,
     [EvListdir "/odoo/backups" None;
      EvClient (Some "AK") (Some "SK") (Some "eu-west-1") None;
      EvListObjects (Some "bk") (Some "prod/") None]).
Proof. vm_compute. reflexivity. Qed.

(** The keys of the example bucket are flat under ["prod"]. *)
Lemma example_keys_flat :
  flat_under "prod" {[ "prod/b.sql"; "prod/c.sql"; "other/x.sql" ]}.
Proof.
  intros k [Hk Hpre]%keys_under_elem.
  assert (k = "prod/b.sql" ∨ k = "prod/c.sql" ∨ k = "other/x.sql")
    as [-> | [-> | ->]] by set_solver.
  - by exists "b.sql".
  - by exists "c.sql".
  - vm_compute in Hpre. discriminate.
Defined.

Lemma mirror_witness :
  let run := sync_record Examples.env Examples.target Examples.st in
  let keys : gset string := {[ "prod/b.sql"; "prod/c.sql"; "other/x.sql" ]} in
  s3_write Examples.target = true
  ∧ s3_folder_name Examples.target = Some " prod "
  ∧ fs_listdir Examples.env "/odoo/backups"
      = Ok ["a.sql"; "b.sql"; "filestore"]
  ∧ s3_bucket_name Examples.target = Some "bk"
  ∧ store Examples.st !! "bk" = Some keys
  ∧ one_page Examples.env "prod" keys
  ∧ flat_under "prod" keys
  ∧ sync_record Examples.env Examples.target Examples.st
      = (run.1.1, run.1.2, run.2)
  ∧ calls_ok run.2
  ∧ (run.1.1 = Ok tt
     ∧ ∃ keys', store run.1.2 !! "bk" = Some keys'
         ∧ remote_names "prod" keys'
             = local_file_set Examples.env "/odoo/backups"
                 ["a.sql"; "b.sql"; "filestore"]).
Proof.
  intros run keys.
  assert (one_page Examples.env "prod" keys) as Hpage by by_computation.
  assert (calls_ok run.2) as Hok by by_computation.
  do 4 (split; [reflexivity|]). split; [by_computation|].
  split; [exact Hpage|]. split; [exact example_keys_flat|].
  split; [reflexivity|]. split; [exact Hok|].
  apply (remote_mirrors_local_after_success Examples.env Examples.target
           " prod " "bk" ["a.sql"; "b.sql"; "filestore"] keys Examples.st
           run.1.2 run.1.1 run.2);
    [reflexivity | reflexivity | reflexivity | reflexivity | by_computation
    | exact Hpage | exact example_keys_flat | reflexivity | exact Hok].
Defined.

(** A key that lies deeper under the prefix stays where it is: every call
    of the cycle goes through, the delete of ["prod/c.sql"] among them, and
    yet the keys under the prefix are not those of the local files, by any
    way of naming them. *)
Lemma nested_key_outlives_cycle :
  let run := sync_record Examples.env Examples.target Examples.st_nested in
  let local_set := local_file_set Examples.env "/odoo/backups"
                     ["a.sql"; "b.sql"; "filestore"] in
  run.1.1 = Ok tt
  ∧ calls_ok run.2
  ∧ delete_calls run.2 = [(Some "bk", "prod/c.sql")]
  ∧ local_set = {[ "a.sql"; "b.sql" ]}
  ∧ store run.1.2 !! "bk"
      = Some {[ "prod/a.sql"; "prod/b.sql"; "prod/2024/c.sql" ]}
  ∧ remote_names "prod"
      {[ "prod/a.sql"; "prod/b.sql"; "prod/2024/c.sql" ]}
      = {[ "a.sql"; "b.sql"; "c.sql" ]}
  ∧ remote_names "prod"
      {[ "prod/a.sql"; "prod/b.sql"; "prod/2024/c.sql" ]} ≠ local_set
  ∧ keys_under "prod" {[ "prod/a.sql"; "prod/b.sql"; "prod/2024/c.sql" ]}
      ≠ set_map (s3_key_of "prod") local_set.
Proof.
  intros run local_set.
  split; [vm_compute; reflexivity|]. split; [by_computation|].
  split; [vm_compute; reflexivity|].
  repeat split; by_computation.
Qed.

Lemma idle_second_cycle_witness :
  let run1 := sync_record Examples.env Examples.target Examples.st in
  let run2 := sync_record Examples.env Examples.target run1.1.2 in
  let keys : gset string := {[ "prod/b.sql"; "prod/c.sql"; "other/x.sql" ]} in
  let keys1 : gset string :=
    {[ "prod/a.sql"; "prod/b.sql"; "other/x.sql" ]} in
  s3_write Examples.target = true
  ∧ s3_folder_name Examples.target = Some " prod "
  ∧ fs_listdir Examples.env "/odoo/backups"
      = Ok ["a.sql"; "b.sql"; "filestore"]
  ∧ s3_bucket_name Examples.target = Some "bk"
  ∧ store Examples.st !! "bk" = Some keys
  ∧ one_page Examples.env "prod" keys
  ∧ flat_under "prod" keys
  ∧ sync_record Examples.env Examples.target Examples.st
      = (run1.1.1, run1.1.2, run1.2)
  ∧ calls_ok run1.2
  ∧ store run1.1.2 !! "bk" = Some keys1
  ∧ one_page Examples.env "prod" keys1
  ∧ sync_record Examples.env Examples.target run1.1.2
      = (run2.1.1, run2.1.2, run2.2)
  ∧ (run2.1.1 = Ok tt ∧ upload_calls run2.2 = []
     ∧ delete_calls run2.2 = [] ∧ store run2.1.2 = store run1.1.2).
Proof.
  intros run1 run2 keys keys1.
  assert (store Examples.st !! "bk" = Some keys) as Hkeys by by_computation.
  assert (one_page Examples.env "prod" keys) as Hpage by by_computation.
  assert (calls_ok run1.2) as Hok by by_computation.
  assert (store run1.1.2 !! "bk" = Some keys1) as Hkeys1 by by_computation.
  assert (one_page Examples.env "prod" keys1) as Hpage1 by by_computation.
  do 4 (split; [reflexivity|]). split; [exact Hkeys|].
  split; [exact Hpage|]. split; [exact example_keys_flat|].
  split; [reflexivity|]. split; [exact Hok|]. split; [exact Hkeys1|].
  split; [exact Hpage1|]. split; [reflexivity|].
  apply (second_cycle_is_idle Examples.env Examples.target " prod " "bk"
           ["a.sql"; "b.sql"; "filestore"] keys keys1 Examples.st
           run1.1.2 run2.1.2 run1.1.1 run2.1.1 run1.2 run2.2);
    [reflexivity | reflexivity | reflexivity | reflexivity | exact Hkeys
    | exact Hpage | exact example_keys_flat | reflexivity | exact Hok
    | exact Hkeys1 | exact Hpage1 | reflexivity].
Defined.

(** A first cycle in which the upload of [a.sql] fails, the failure being
    logged, leaves the folder and the bucket as they were; the second cycle
    uploads [a.sql]. *)
Lemma second_cycle_retries_failed_upload :
  let run1 := sync_record Examples.env Examples.target Examples.st_offline in
  let run2 := sync_record Examples.env Examples.target run1.1.2 in
  run1.1.1 = Ok tt
  ∧ run1.2
    = [EvListdir "/odoo/backups" None;
       EvClient (Some "AK") (Some "SK") (Some "eu-west-1") None;
       EvListObjects (Some "bk") (Some "prod/") None;
       EvClient (Some "AK") (Some "SK") (Some "eu-west-1") None;
       EvUploadFile "/odoo/backups/a.sql" (Some "bk") "prod/a.sql"
         (Some Examples.offline);
       EvLog ERROR
         "Failed to upload backup to S3: Could not connect to the endpoint URL: https://bk.s3.eu-west-1.amazonaws.com/";
       EvLog ERROR
         "Failed to upload file a.sql to S3: Failed to upload backup to S3: Could not connect to the endpoint URL: https://bk.s3.eu-west-1.amazonaws.com/"]
  ∧ store run1.1.2 = store Examples.st_offline
  ∧ run2.1.1 = Ok tt
  ∧ upload_calls run2.2
    = [("/odoo/backups/a.sql", Some "bk", "prod/a.sql")]
  ∧ upload_calls run2.2 ≠ [].
Proof.
  intros run1 run2.
  do 2 (split; [vm_compute; reflexivity|]). split; [by_computation|].
  do 2 (split; [vm_compute; reflexivity|]). vm_compute. discriminate.
Qed.

(** With a key that lies deeper under the prefix, two cycles in which every
    call goes through both call [delete_object]. *)
Example second_cycle_deletes_again :
  let run1 := sync_record Examples.env Examples.target Examples.st_nested in
  let run2 := sync_record Examples.env Examples.target run1.1.2 in
  calls_ok run1.2 ∧ calls_ok run2.2
  ∧ delete_calls run1.2 = [(Some "bk", "prod/c.sql")]
  ∧ delete_calls run2.2 = [(Some "bk", "prod/c.sql")].
Proof.
  intros run1 run2. do 2 (split; [by_computation|]).
  split; vm_compute; reflexivity.
Qed.

Lemma listing_witness :
  let keys : gset string := {[ "prod/b.sql"; "prod/c.sql"; "other/x.sql" ]} in
  let page := take (max_keys Examples.env)
                (matching_keys (Some ("prod" +:+ "/")) keys) in
  store Examples.st !! "bk" = Some keys
  ∧ (pop_fault Examples.st).1 = None
  ∧ (list_s3_objects Examples.env Examples.client (Some "bk") "prod"
       Examples.st
       = (Ok ((λ k, {| Key := k |}) <$> page), (pop_fault Examples.st).2,
          [EvListObjects (Some "bk") (Some ("prod" +:+ "/")) None])
     ∧ (∀ k, k ∈ page → k ∈ keys ∧ Py.startswith ("prod" +:+ "/") k = true)
     ∧ length page = min (max_keys Examples.env)
                       (size (keys_under "prod" keys))
     ∧ (keys_under "prod" keys = ∅ → page = [])
     ∧ (one_page Examples.env "prod" keys →
          ∀ k, k ∈ keys_under "prod" keys → k ∈ page)
     ∧ (¬ one_page Examples.env "prod" keys →
          ∃ k, k ∈ keys_under "prod" keys ∧ k ∉ page)).
Proof.
  intros keys page.
  assert (store Examples.st !! "bk" = Some keys) as Hkeys by by_computation.
  split; [exact Hkeys|]. split; [reflexivity|].
  apply (listing_is_first_page Examples.env Examples.client "bk" "prod" keys
           Examples.st); [exact Hkeys | reflexivity].
Defined.

(** The listing of the example bucket, and of a prefix without objects. *)
Example listing_runs :
  (list_s3_objects Examples.env Examples.client (Some "bk") "prod"
     Examples.st).1.1
    = Ok [{| Key := "prod/b.sql" |}; {| Key := "prod/c.sql" |}]
  ∧ (list_s3_objects Examples.env Examples.client (Some "bk") "empty"
       Examples.st).1.1 = Ok [].
Proof. split; vm_compute; reflexivity. Qed.

(** The numbered keys are all under ["prod/"], and all different. *)
Lemma numbered_keys_under n :
  keys_under "prod" (Examples.numbered_keys n) = Examples.numbered_keys n.
Proof.
  apply set_eq. intros k. rewrite keys_under_elem. split; [by intros [? _]|].
  intros Hk. split; [done|].
  apply elem_of_list_to_set, list_elem_of_fmap in Hk as (i & -> & _).
  apply (startswith_app "prod/").
Qed.

Lemma numbered_keys_size n : size (Examples.numbered_keys n) = n.
Proof.
  unfold Examples.numbered_keys. rewrite size_list_to_set.
  - by rewrite length_fmap, length_seq.
  - assert (Inj (=) (=) (λ i : nat, "prod/" +:+ pretty i)) as Hinj.
    { intros i j Hij.
      by apply (inj (String.app "prod/")), (inj pretty) in Hij. }
    apply (NoDup_fmap_2 _), NoDup_seq.
Qed.

(** A bucket with 1001 keys under the prefix, listed by pages of 1000: the
    call goes through and returns the first page, of at most 1000 objects;
    one of the 1001 keys, which is in the bucket and starts with the
    prefix, is not in what [list_s3_objects] returns. *)
Lemma crowded_listing_is_cut :
  let page := take 1000
                (matching_keys (Some "prod/") (Examples.numbered_keys 1001)) in
  store Examples.st_crowded !! "bk" = Some (Examples.numbered_keys 1001)
  ∧ max_keys Examples.env = 1000
  ∧ size (keys_under "prod" (Examples.numbered_keys 1001)) = 1001
  ∧ list_s3_objects Examples.env Examples.client (Some "bk") "prod"
      Examples.st_crowded
    = (Ok ((λ k, {| Key := k |}) <$> page), Examples.st_crowded,
       [EvListObjects (Some "bk") (Some "prod/") None])
  ∧ (length ((λ k, {| Key := k |}) <$> page) ≤ 1000)%nat
  ∧ ∃ k, k ∈ Examples.numbered_keys 1001
         ∧ Py.startswith "prod/" k = true
         ∧ {| Key := k |} ∉ (λ k, {| Key := k |}) <$> page.
Proof.
  intros page.
  assert (store Examples.st_crowded !! "bk"
          = Some (Examples.numbered_keys 1001)) as Hkeys
    by apply lookup_singleton_eq.
  assert (size (keys_under "prod" (Examples.numbered_keys 1001)) = 1001)
    as Hsize by by rewrite numbered_keys_under, numbered_keys_size.
  split; [exact Hkeys|]. split; [reflexivity|]. split; [exact Hsize|]. split.
  { apply (list_s3_objects_run Examples.env Examples.client "bk" "prod"
             (Examples.numbered_keys 1001) Examples.st_crowded Hkeys).
    reflexivity. }
  split; [unfold page; rewrite length_fmap, length_take; apply Nat.le_min_l|].
  destruct (page_misses_key Examples.env "prod" (Examples.numbered_keys 1001))
    as (k & [Hk Hpre]%keys_under_elem & Hmiss).
  { unfold one_page. rewrite Hsize. change (max_keys Examples.env) with 1000.
    lia. }
  exists k. do 2 (split; [done|]).
  intros (k' & Hk' & Hin)%list_elem_of_fmap. injection Hk' as <-.
  by apply Hmiss.
Qed.

(** What [os.listdir] gives for the backup folder are file names. *)
Lemma example_entries_are_names :
  entries_are_names Examples.env "/odoo/backups".
Proof.
  intros names f Hls Hf. injection Hls as <-.
  assert (f = "a.sql" ∨ f = "b.sql" ∨ f = "filestore")
    as [-> | [-> | ->]] by set_solver.
  all: by split.
Defined.

Lemma folder_marker_witness :
  let run := sync_record Examples.env Examples.target Examples.st_marker in
  let listed := [EvClient (Some "AK") (Some "SK") (Some "eu-west-1") None;
                 EvListObjects (Some "bk") (Some "prod/") None] in
  let objs := [{| Key := "prod/" |}; {| Key := "prod/a.sql" |};
               {| Key := "prod/b.sql" |}] in
  let local_set :=
    local_file_set Examples.env "/odoo/backups"
      ["a.sql"; "b.sql"; "filestore"] in
  let remote_set := s3_file_names objs in
  s3_write Examples.target = true
  ∧ s3_folder_name Examples.target = Some " prod "
  ∧ fs_listdir Examples.env "/odoo/backups"
      = Ok ["a.sql"; "b.sql"; "filestore"]
  ∧ entries_are_names Examples.env "/odoo/backups"
  ∧ try_list Examples.env Examples.target "prod" Examples.st_marker
      = (Ok (Some (Examples.client, objs)), Examples.st_marker, listed)
  ∧ {| Key := "prod" +:+ "/" |} ∈ objs
  ∧ sync_record Examples.env Examples.target Examples.st_marker
      = (run.1.1, run.1.2, run.2)
  ∧ (key_name {| Key := "prod" +:+ "/" |} = ""
     ∧ ("" ∉ local_set)
     ∧ ("" ∈ remote_set ∖ local_set)
     ∧ (run.1.1 = Ok tt →
          (Some "bk", "prod" +:+ "/") ∈ delete_calls run.2)).
Proof.
  intros run listed objs local_set remote_set.
  assert ({| Key := "prod" +:+ "/" |} ∈ objs) as Hobj by by_computation.
  do 3 (split; [reflexivity|]). split; [exact example_entries_are_names|].
  split; [vm_compute; reflexivity|]. split; [exact Hobj|].
  split; [reflexivity|].
  apply (folder_marker_is_deleted Examples.env Examples.target " prod "
           ["a.sql"; "b.sql"; "filestore"] Examples.client objs
           Examples.st_marker Examples.st_marker run.1.2 listed run.2
           run.1.1);
    [reflexivity | reflexivity | reflexivity
    | exact example_entries_are_names | vm_compute; reflexivity
    | exact Hobj | reflexivity].
Defined.

(** The cycle of the bucket with the folder marker, spelled out. *)
Example folder_marker_run :
  sync_record Examples.env Examples.target Examples.st_marker
  = (Ok tt,
     Examples.state_of [Examples.target] {[ "prod/a.sql"; "prod/b.sql" ]} [],
     [EvListdir "/odoo/backups" None;
      EvClient (Some "AK") (Some "SK") (Some "eu-west-1") None;
      EvListObjects (Some "bk") (Some "prod/") None;
      EvDeleteObject (Some "bk") "prod/" None;
      EvLog INFO "Deleted file from S3: prod/"]).
Proof. vm_compute. reflexivity. Qed.

(** C10 (the code departs from it).  The listing holds the folder marker
    and the empty name is in the set to delete, but the upload of [a.sql]
    comes first and is refused: [upload_file] raises
    [S3UploadFailedError], which neither [upload_to_s3] nor the handler of
    the upload loop takes, the exception leaves the loop body, and
    [delete_object] is never called on ["prod/"]. *)
Theorem folder_marker_delete_not_reached :
  let run := sync_record Examples.env Examples.target
               Examples.st_marker_refused in
  let objs := [{| Key := "prod/" |}; {| Key := "prod/b.sql" |}] in
  try_list Examples.env Examples.target "prod" Examples.st_marker_refused
    = (Ok (Some (Examples.client, objs)),
       set_faults [None; Some Examples.refused] Examples.st_marker_refused,
       [EvClient (Some "AK") (Some "SK") (Some "eu-west-1") None;
        EvListObjects (Some "bk") (Some "prod/") None])
  ∧ {| Key := "prod/" |} ∈ objs
  ∧ "" ∈ s3_file_names objs
           ∖ local_file_set Examples.env "/odoo/backups"
               ["a.sql"; "b.sql"; "filestore"]
  ∧ run.1.1 = Raise Examples.refused
  ∧ run.2
    = [EvListdir "/odoo/backups" None;
       EvClient (Some "AK") (Some "SK") (Some "eu-west-1") None;
       EvListObjects (Some "bk") (Some "prod/") None;
       EvClient (Some "AK") (Some "SK") (Some "eu-west-1") None;
       EvUploadFile "/odoo/backups/a.sql" (Some "bk") "prod/a.sql"
         (Some Examples.refused)]
  ∧ delete_calls run.2 = []
  ∧ ((Some "bk", "prod/") ∉ delete_calls run.2)
  ∧ "prod/" ∈ keys_of run.1.2 "bk"
  ∧ isinstance Examples.refused BotoCoreError = false
  ∧ isinstance Examples.refused UserError = false.
Proof.
  intros run objs.
  split; [vm_compute; reflexivity|]. do 2 (split; [by_computation|]).
  do 3 (split; [vm_compute; reflexivity|]).
  do 2 (split; [by_computation|]). split; reflexivity.
Qed.

(** C2 (the code departs from it).  The service refuses the upload of
    [a.sql]: [upload_file] raises [S3UploadFailedError], which is not a
    [BotoCoreError], so [upload_to_s3] does not turn it into a [UserError]
    and the handler of the loop does not catch it.  The exception leaves
    [schedule_backup]: [c.sql] is not deleted and the second record is
    never looked at. *)
Theorem refused_upload_leaves_schedule_backup :
  schedule_backup Examples.env Examples.st_refused
  = (Raise Examples.refused,
     Examples.state_of [Examples.target; Examples.target]
       {[ "prod/b.sql"; "prod/c.sql" ]} [],
     [EvListdir "/odoo/backups" None;
      EvClient (Some "AK") (Some "SK") (Some "eu-west-1") None;
      EvListObjects (Some "bk") (Some "prod/") None;
      EvClient (Some "AK") (Some "SK") (Some "eu-west-1") None;
      EvUploadFile "/odoo/backups/a.sql" (Some "bk") "prod/a.sql"
        (Some Examples.refused)])
  ∧ isinstance Examples.refused BotoCoreError = false
  ∧ isinstance Examples.refused UserError = false.
Proof. split; [vm_compute; reflexivity|]. split; reflexivity. Qed.

(** The same on the side of the deletes: the network is down when
    [c.sql] is to be deleted, [delete_object] raises an
    [EndpointConnectionError], which is not a [ClientError], and the
    exception leaves [schedule_backup] before the second record. *)
Example offline_delete_leaves_schedule_backup :
  schedule_backup Examples.env Examples.st_delete_offline
  = (Raise Examples.offline,
     Examples.state_of [Examples.target; Examples.target]
       {[ "prod/a.sql"; "prod/b.sql"; "prod/c.sql" ]} [],
     [EvListdir "/odoo/backups" None;
      EvClient (Some "AK") (Some "SK") (Some "eu-west-1") None;
      EvListObjects (Some "bk") (Some "prod/") None;
      EvDeleteObject (Some "bk") "prod/c.sql" (Some Examples.offline)])
  ∧ isinstance Examples.offline ClientError = false.
Proof. split; [vm_compute; reflexivity|reflexivity]. Qed.

(** The failures the handlers are written for stay inside the loop: an
    upload that fails with a [BotoCoreError] is logged, and the cycle goes
    on. *)
Example offline_upload_is_logged :
  (schedule_backup Examples.env Examples.st_offline).1.1 = Ok tt.
Proof. vm_compute. reflexivity. Qed.

(** ** Exceptions in a cycle: which are taken, which leave *)

Lemma converted_BotoCoreError e : converted e = isinstance e BotoCoreError.
Proof. destruct e as [[] msg]; reflexivity. Qed.

Lemma upload_error_UserError e : isinstance (upload_error e) UserError = true.
Proof. reflexivity. Qed.

Lemma upload_error_not_BotoCoreError e :
  isinstance (upload_error e) BotoCoreError = false.
Proof. reflexivity. Qed.

Section Exceptions.

Context (env : Env).

(** The whole of [upload_to_s3]: either both calls go through, or the one
    that raises ends it, after a log line and as a [UserError] when the
    exception is one of the [except] clause, as it is otherwise. *)
Lemma upload_to_s3_cases path bucket key a sk rg s r s' t :
  upload_to_s3 env path bucket key a sk rg s = (r, s', t) →
  (r = Ok tt
   ∧ t = [EvClient a sk rg None; EvUploadFile path bucket key None;
          EvLog INFO ("Successfully uploaded " +:+ path +:+ " to S3 bucket "
                      +:+ Py.fmt bucket)]
   ∧ ∃ b keys, bucket = Some b ∧ store s !! b = Some keys
       ∧ store s' = <[b := {[key]} ∪ keys]> (store s))
  ∨ (∃ e calls,
       (calls = [EvClient a sk rg (Some e)]
        ∨ calls = [EvClient a sk rg None;
                   EvUploadFile path bucket key (Some e)])
       ∧ store s' = store s
       ∧ if converted e then
           r = Raise (upload_error e)
           ∧ t = calls ++ [EvLog ERROR ("Failed to upload backup to S3: "
                                        +:+ str e)]
         else r = Raise e ∧ t = calls).
Proof.
  unfold upload_to_s3, try_except, bind. fold (converted). intros H.
  destruct (boto3_client _ _ _ _) as [[r1 s1] t1] eqn:E1.
  apply boto3_client_inv in E1 as (Hr1 & Hs1 & ->).
  destruct r1 as [c|e]; simpl in H.
  - destruct (upload_file _ _ _ _ _ _) as [[r2 s2] t2] eqn:E2.
    apply upload_file_inv in E2 as (Hr2 & -> & Hs2).
    destruct r2 as [[]|e]; simpl in H.
    + simplify_eq/=. left. do 2 (split; [done|]).
      destruct Hs2 as (b & keys & -> & Hb & ->).
      exists b, keys. by rewrite <- Hs1.
    + right. exists e, [EvClient a sk rg None;
                        EvUploadFile path bucket key (Some e)].
      split; [by right|]. fold (converted e) in H.
      destruct (converted e); simplify_eq/=; (split; [congruence|done]).
  - right. exists e, [EvClient a sk rg (Some e)].
    split; [by left|]. fold (converted e) in H.
    destruct (converted e); simplify_eq/=; done.
Qed.

(** A turn of the first loop lets out only what neither handler takes,
    and then the call that raised it is the last event of the turn. *)
Lemma upload_missing_raise rec folder_path s3_folder n s e s' t :
  upload_missing env rec folder_path s3_folder n s = (Raise e, s', t) →
  ∃ ev, last t = Some ev ∧ escaping e ev.
Proof.
  unfold upload_missing, try_except, bind. intros H.
  destruct (upload_to_s3 _ _ _ _ _ _ _ _) as [[r1 s1] t1] eqn:E1.
  apply upload_to_s3_cases in E1
    as [(-> & -> & _)|(e0 & calls & Hcalls & _ & Hconv)]; [done|].
  rewrite converted_BotoCoreError in Hconv.
  destruct (isinstance e0 BotoCoreError) eqn:Hb.
  - destruct Hconv as [-> ->]. simpl in H. done.
  - destruct Hconv as [-> ->]. simpl in H.
    destruct (isinstance e0 UserError) eqn:Hu; simplify_eq/=.
    destruct Hcalls as [->| ->]; eexists; (split; [reflexivity|]);
      by repeat split.
Qed.

Lemma delete_extra_raise rec c s3_folder n s e s' t :
  delete_extra rec c s3_folder n s = (Raise e, s', t) →
  ∃ ev, last t = Some ev ∧ escaping e ev.
Proof.
  unfold delete_extra, try_except, bind. intros H.
  destruct (delete_object _ _ _ _) as [[r1 s1] t1] eqn:E1.
  apply delete_object_inv in E1 as (_ & -> & _).
  destruct r1 as [[]|e0]; simpl in H; [done|].
  destruct (isinstance e0 ClientError) eqn:Hc; simplify_eq/=.
  eexists. split; [reflexivity|]. by split.
Qed.

(** A loop that ends with an exception ends with the turn that raised. *)
Lemma for_each_raise {A} (body : A → M unit) (l : list A) :
  (∀ x s e s' t, body x s = (Raise e, s', t) →
     ∃ ev, last t = Some ev ∧ escaping e ev) →
  ∀ s e s' t, for_each l body s = (Raise e, s', t) →
    ∃ ev, last t = Some ev ∧ escaping e ev.
Proof.
  intros Hbody. induction l as [|x l IH]; intros s e s' t H.
  - by rewrite for_each_nil in H.
  - rewrite for_each_cons in H.
    destruct (body x s) as [[[[]|e1] s1] t1] eqn:E1.
    + destruct (for_each l body s1) as [[r2 s2] t2] eqn:E2. simplify_eq.
      destruct (IH _ _ _ _ E2) as (ev & Hlast & Hev).
      exists ev. split; [|done]. by rewrite last_app, Hlast.
    + simplify_eq. eauto.
Qed.

Lemma sync_files_raise rec c folder_path s3_folder (L R : gset string)
    s e s' t :
  sync_files env rec c folder_path s3_folder L R s = (Raise e, s', t) →
  ∃ ev, last t = Some ev ∧ escaping e ev.
Proof.
  unfold sync_files, bind. intros H.
  destruct (for_each (set_iter env (L ∖ R)) _ s) as [[[[]|e1] s1] t1] eqn:E1.
  - destruct (for_each (set_iter env (R ∖ L)) _ s1) as [[r2 s2] t2] eqn:E2.
    simplify_eq.
    apply for_each_raise in E2 as (ev & Hlast & Hev);
      [|intros *; apply delete_extra_raise].
    exists ev. split; [|done]. by rewrite last_app, Hlast.
  - simplify_eq.
    apply for_each_raise in E1; [done|intros *; apply upload_missing_raise].
Qed.

(** The cycle of a record lets out the [AttributeError] of an unset folder
    name, before any call, or else an exception of a call of one of the
    two inner loops that the handler of that loop does not take. *)
Lemma sync_record_raise rec s e s' t :
  sync_record env rec s = (Raise e, s', t) →
  (s3_write rec = true ∧ s3_folder_name rec = None
   ∧ e = strip_error ∧ s' = s ∧ t = [])
  ∨ (∃ ev, last t = Some ev ∧ escaping e ev).
Proof.
  intros H. destruct (s3_write rec) eqn:Hw.
  2: { by rewrite sync_record_disabled in H. }
  destruct (s3_folder_name rec) as [name|] eqn:Hn.
  2: { rewrite sync_record_unset in H by done. simplify_eq. by left. }
  right. rewrite (sync_record_run env rec name s Hw Hn) in H.
  destruct (fs_listdir env (folder rec)) as [names|e0]; [|done].
  destruct (try_list env rec (Py.strip name) s) as [[r1 s1] t1] eqn:E1.
  apply try_list_inv in E1 as (_ & _ & _ & _ & Hcase).
  destruct r1 as [[[c objs]|]|e1]; [|done|done].
  destruct (sync_files _ _ _ _ _ _ _ _) as [[r2 s2] t2] eqn:E2.
  simplify_eq. apply sync_files_raise in E2 as (ev & Hlast & Hev).
  exists ev. split; [|done].
  change (EvListdir (folder rec) None :: t1 ++ t2)
    with ([EvListdir (folder rec) None] ++ (t1 ++ t2)).
  by rewrite !last_app, Hlast.
Qed.

End Exceptions.

(** ** What a cycle changes in the buckets, and how many clients it builds *)

Lemma keys_of_store s s' b : store s' = store s → keys_of s' b = keys_of s b.
Proof. unfold keys_of. by intros ->. Qed.

Lemma changes_within_refl bucket A D s : changes_within bucket A D s s.
Proof. split; [done|]. intros b k. split; by left. Qed.

Lemma changes_within_store_l bucket A D s s1 s' :
  store s1 = store s →
  changes_within bucket A D s1 s' → changes_within bucket A D s s'.
Proof.
  intros Hs [Hdom H]. split; [by rewrite Hdom, Hs|].
  intros b k. rewrite <- (keys_of_store s s1 b Hs). apply H.
Qed.

Lemma changes_within_store_r bucket A D s s1 s' :
  store s' = store s1 →
  changes_within bucket A D s s1 → changes_within bucket A D s s'.
Proof.
  intros Hs [Hdom H]. split; [by rewrite Hs|].
  intros b k. rewrite (keys_of_store s1 s' b Hs). apply H.
Qed.

Lemma changes_within_trans bucket A D s1 s2 s3 :
  changes_within bucket A D s1 s2 → changes_within bucket A D s2 s3 →
  changes_within bucket A D s1 s3.
Proof.
  intros [Hdom1 H1] [Hdom2 H2]. split; [congruence|].
  intros b k. destruct (H1 b k) as [H1a H1d], (H2 b k) as [H2a H2d].
  split; intros Hk.
  - destruct (H2a Hk) as [Hk2|?]; [|by right]. by apply H1a.
  - destruct (H1d Hk) as [Hk2|?]; [|by right]. by apply H2d.
Qed.

Lemma changes_within_mono bucket (A A' D D' : gset string) s s' :
  A ⊆ A' → D ⊆ D' →
  changes_within bucket A D s s' → changes_within bucket A' D' s s'.
Proof.
  intros HA HD [Hdom H]. split; [done|].
  intros b k. destruct (H b k) as [Ha Hd]. split; intros Hk.
  - destruct (Ha Hk) as [?|[? ?]]; [by left|right]. split; [done|set_solver].
  - destruct (Hd Hk) as [?|[? ?]]; [by left|right]. split; [done|set_solver].
Qed.

Lemma changes_within_insert b (keys keys' A D : gset string) s s' :
  store s !! b = Some keys →
  store s' = <[b := keys']> (store s) →
  (∀ k, k ∈ keys' → k ∈ keys ∨ k ∈ A) →
  (∀ k, k ∈ keys → k ∈ keys' ∨ k ∈ D) →
  changes_within (Some b) A D s s'.
Proof.
  intros Hb Hs' HA HD. split.
  - rewrite Hs', dom_insert_L.
    assert (b ∈ dom (store s)) by by apply elem_of_dom_2 in Hb.
    set_solver.
  - intros b' k. unfold keys_of. rewrite Hs'.
    destruct (decide (b = b')) as [<-|Hne].
    + rewrite lookup_insert_eq, Hb. simpl. split; intros Hk.
      * destruct (HA k Hk); [by left|by right].
      * destruct (HD k Hk); [by left|by right].
    + rewrite lookup_insert_ne by done. split; by left.
Qed.

Lemma client_calls_app t1 t2 :
  client_calls (t1 ++ t2) = client_calls t1 + client_calls t2.
Proof. unfold client_calls. by rewrite List.filter_app, length_app. Qed.

Lemma client_calls_cons ev t :
  client_calls (ev :: t) = client_calls [ev] + client_calls t.
Proof. apply (client_calls_app [ev] t). Qed.

Section Changes.

Context (env : Env).

Lemma upload_to_s3_changes path bucket key a sk rg s r s' t :
  upload_to_s3 env path bucket key a sk rg s = (r, s', t) →
  changes_within bucket {[key]} ∅ s s' ∧ client_calls t = 1.
Proof.
  intros [(-> & -> & b & keys & -> & Hb & Hs')
         |(e & calls & Hcalls & Hs' & Hconv)]%upload_to_s3_cases.
  - split; [|done].
    apply (changes_within_insert b keys ({[key]} ∪ keys)); [done|done| |];
      set_solver.
  - split.
    + apply (changes_within_store_r _ _ _ s s); [done|].
      apply changes_within_refl.
    + destruct (converted e); destruct Hconv as [_ ->];
        destruct Hcalls as [->| ->]; reflexivity.
Qed.

Lemma upload_missing_changes rec folder_path s3_folder n s r s' t :
  upload_missing env rec folder_path s3_folder n s = (r, s', t) →
  changes_within (s3_bucket_name rec) {[s3_key_of s3_folder n]} ∅ s s'
  ∧ client_calls t = 1.
Proof.
  unfold upload_missing, try_except, bind. intros H.
  destruct (upload_to_s3 _ _ _ _ _ _ _ _) as [[r1 s1] t1] eqn:E1.
  apply upload_to_s3_changes in E1 as [Hch Hcl].
  destruct r1 as [[]|e]; simpl in H.
  - simplify_eq. by rewrite client_calls_app, Hcl.
  - destruct (isinstance e UserError); simplify_eq/=; [|done].
    by rewrite client_calls_app, Hcl.
Qed.

Lemma delete_extra_changes rec c s3_folder n s r s' t :
  delete_extra rec c s3_folder n s = (r, s', t) →
  changes_within (s3_bucket_name rec) ∅ {[s3_key_of s3_folder n]} s s'
  ∧ client_calls t = 0.
Proof.
  unfold delete_extra, try_except, bind. intros H.
  destruct (delete_object _ _ _ _) as [[r1 s1] t1] eqn:E1.
  apply delete_object_inv in E1 as (_ & -> & Hs1).
  assert (changes_within (s3_bucket_name rec) ∅ {[s3_key_of s3_folder n]}
            s s1) as Hch.
  { destruct r1 as [[]|e].
    - destruct Hs1 as (b & keys & -> & Hb & Hs1).
      apply (changes_within_insert b keys (keys ∖ {[s3_key_of s3_folder n]}));
        [done|done| |]; intros k.
      + set_solver.
      + destruct (decide (k = s3_key_of s3_folder n)); set_solver.
    - apply (changes_within_store_r _ _ _ s s); [done|].
      apply changes_within_refl. }
  destruct r1 as [[]|e]; simpl in H.
  - by simplify_eq.
  - destruct (isinstance e ClientError); by simplify_eq/=.
Qed.

Lemma upload_loop_changes rec folder_path s3_folder l :
  ∀ s r s' t,
    for_each l (upload_missing env rec folder_path s3_folder) s
      = (r, s', t) →
    changes_within (s3_bucket_name rec)
      (list_to_set (s3_key_of s3_folder <$> l)) ∅ s s'
    ∧ (client_calls t ≤ length l)%nat
    ∧ (r = Ok tt → client_calls t = length l).
Proof.
  induction l as [|n l IH]; intros s r s' t H.
  - rewrite for_each_nil in H. simplify_eq.
    split; [apply changes_within_refl|done].
  - rewrite for_each_cons in H.
    destruct (upload_missing _ _ _ _ _ _) as [[r1 s1] t1] eqn:E1.
    apply upload_missing_changes in E1 as [Hch1 Hcl1].
    assert (changes_within (s3_bucket_name rec)
              (list_to_set (s3_key_of s3_folder <$> n :: l)) ∅ s s1) as Hch1'.
    { eapply changes_within_mono; [| |exact Hch1]; set_solver. }
    destruct r1 as [[]|e].
    + destruct (for_each l _ s1) as [[r2 s2] t2] eqn:E2.
      destruct (IH _ _ _ _ E2) as (Hch2 & Hle & Heq). simplify_eq.
      rewrite client_calls_app, Hcl1. split; [|split].
      * eapply changes_within_trans; [exact Hch1'|].
        eapply changes_within_mono; [| |exact Hch2]; set_solver.
      * simpl. lia.
      * intros ->. simpl. by rewrite Heq.
    + simplify_eq. split; [done|]. rewrite Hcl1. simpl. split; [lia|done].
Qed.

Lemma delete_loop_changes rec c s3_folder l :
  ∀ s r s' t,
    for_each l (delete_extra rec c s3_folder) s = (r, s', t) →
    changes_within (s3_bucket_name rec) ∅
      (list_to_set (s3_key_of s3_folder <$> l)) s s'
    ∧ client_calls t = 0.
Proof.
  induction l as [|n l IH]; intros s r s' t H.
  - rewrite for_each_nil in H. simplify_eq.
    split; [apply changes_within_refl|done].
  - rewrite for_each_cons in H.
    destruct (delete_extra _ _ _ _ _) as [[r1 s1] t1] eqn:E1.
    apply delete_extra_changes in E1 as [Hch1 Hcl1].
    assert (changes_within (s3_bucket_name rec) ∅
              (list_to_set (s3_key_of s3_folder <$> n :: l)) s s1) as Hch1'.
    { eapply changes_within_mono; [| |exact Hch1]; set_solver. }
    destruct r1 as [[]|e].
    + destruct (for_each l _ s1) as [[r2 s2] t2] eqn:E2.
      destruct (IH _ _ _ _ E2) as (Hch2 & Hcl2). simplify_eq.
      rewrite client_calls_app, Hcl1, Hcl2. split; [|done].
      eapply changes_within_trans; [exact Hch1'|].
      eapply changes_within_mono; [| |exact Hch2]; set_solver.
    + by simplify_eq.
Qed.

(** The two loops together: keys appear only for the names to upload,
    and disappear only for the names to delete. *)
Lemma sync_files_changes rec c folder_path s3_folder (L R : gset string)
    s r s' t :
  sync_files env rec c folder_path s3_folder L R s = (r, s', t) →
  changes_within (s3_bucket_name rec)
    (set_map (s3_key_of s3_folder) (L ∖ R))
    (set_map (s3_key_of s3_folder) (R ∖ L)) s s'
  ∧ (client_calls t ≤ size (L ∖ R))%nat
  ∧ (r = Ok tt → client_calls t = size (L ∖ R)).
Proof.
  unfold sync_files, bind. intros H.
  assert (length (set_iter env (L ∖ R)) = size (L ∖ R)) as Hlen.
  { by rewrite (set_iter_perm env (L ∖ R)). }
  destruct (for_each (set_iter env (L ∖ R)) _ s) as [[r1 s1] t1] eqn:E1.
  apply upload_loop_changes in E1 as (Hch1 & Hle & Heq).
  rewrite list_to_set_set_iter in Hch1. rewrite Hlen in Hle, Heq.
  assert (changes_within (s3_bucket_name rec)
            (set_map (s3_key_of s3_folder) (L ∖ R))
            (set_map (s3_key_of s3_folder) (R ∖ L)) s s1) as Hch1'.
  { eapply changes_within_mono; [| |exact Hch1]; set_solver. }
  destruct r1 as [[]|e].
  - destruct (for_each (set_iter env (R ∖ L)) _ s1) as [[r2 s2] t2] eqn:E2.
    apply delete_loop_changes in E2 as (Hch2 & Hcl2).
    rewrite list_to_set_set_iter in Hch2. simplify_eq.
    rewrite client_calls_app, Hcl2, Nat.add_0_r. split; [|by auto].
    eapply changes_within_trans; [exact Hch1'|].
    eapply changes_within_mono; [| |exact Hch2]; set_solver.
  - simplify_eq. split; [done|]. split; [done|]. intros ?. done.
Qed.

End Changes.

(** ** The phases of a cycle, and the loop over the records *)

Section Phases.

Context (env : Env).

(** A cycle either stops before the two inner loops, with the buckets as
    they were and no upload or delete, or is a scan, a listing and the two
    loops. *)
Lemma sync_record_phases rec s r s' t :
  sync_record env rec s = (r, s', t) →
  (upload_calls t = [] ∧ delete_calls t = [] ∧ store s' = store s
   ∧ (client_calls t ≤ 1)%nat)
  ∨ (∃ name names c objs s1 t1 t2,
       s3_write rec = true ∧ s3_folder_name rec = Some name
       ∧ fs_listdir env (folder rec) = Ok names
       ∧ try_list env rec (Py.strip name) s = (Ok (Some (c, objs)), s1, t1)
       ∧ sync_files env rec c (folder rec) (Py.strip name)
           (local_file_set env (folder rec) names) (s3_file_names objs) s1
         = (r, s', t2)
       ∧ t = EvListdir (folder rec) None :: t1 ++ t2).
Proof.
  intros H. destruct (s3_write rec) eqn:Hw.
  2: { rewrite sync_record_disabled in H by done. simplify_eq.
       left. repeat split; auto. }
  destruct (s3_folder_name rec) as [name|] eqn:Hn.
  2: { rewrite sync_record_unset in H by done. simplify_eq.
       left. repeat split; auto. }
  rewrite (sync_record_run env rec name s Hw Hn) in H.
  destruct (fs_listdir env (folder rec)) as [names|e0] eqn:Hls.
  2: { simplify_eq. left. repeat split; auto. }
  destruct (try_list env rec (Py.strip name) s) as [[r1 s1] t1] eqn:E1.
  pose proof (try_list_inv env _ _ _ _ _ _ E1)
    as (_ & Hs1 & Hu1 & Hd1 & Hcase).
  destruct r1 as [[[c objs]|]|e1]; [| |done].
  - destruct (sync_files _ _ _ _ _ _ _ _) as [[r2 s2] t2] eqn:E2.
    simplify_eq. right. by exists name, names, c, objs, s1, t1, t2.
  - simplify_eq. left.
    rewrite upload_calls_cons, delete_calls_cons, Hu1, Hd1.
    do 3 (split; [done|]).
    unfold try_list, get_s3_client, try_except, bind in E1.
    destruct (boto3_client _ _ _ _) as [[r0 s0] t0] eqn:E0.
    apply boto3_client_inv in E0 as (_ & _ & ->).
    destruct r0 as [c0|e0]; simpl in E1.
    + destruct (list_s3_objects _ _ _ _ _) as [[r3 s3] t3] eqn:E3.
      apply list_s3_objects_inv in E3 as (_ & _ & -> & _).
      destruct r3; simpl in E1; [by simplify_eq|].
      rewrite isinstance_Exception in E1. by simplify_eq.
    + rewrite isinstance_Exception in E1. by simplify_eq.
Qed.

Lemma prefix_sublist {A} (l1 l2 : list A) :
  l1 `prefix_of` l2 → l1 `sublist_of` l2.
Proof. intros [k ->]. by apply sublist_inserts_r. Qed.

(** The uploads and the deletes of a cycle, whatever fails: uploads of
    local names the listing did not show, deletes of listed names that
    are not local. *)
Lemma sync_record_calls rec s r s' t :
  sync_record env rec s = (r, s', t) →
  ∃ names (L R : gset string) prefix,
    (upload_calls t ≠ [] ∨ delete_calls t ≠ [] →
       fs_listdir env (folder rec) = Ok names
       ∧ L = local_file_set env (folder rec) names
       ∧ ∃ name, s3_folder_name rec = Some name ∧ prefix = Py.strip name)
    ∧ upload_calls t
        `sublist_of` (upload_of rec (folder rec) prefix <$> set_iter env (L ∖ R))
    ∧ delete_calls t
        `sublist_of` (delete_of rec prefix <$> set_iter env (R ∖ L)).
Proof.
  intros [(Hu & Hd & _)
         |(name & names & c & objs & s1 & t1 & t2 & Hw & Hn & Hls & Hlist
           & Hsync & ->)]%sync_record_phases.
  - exists [], ∅, ∅, "". rewrite Hu, Hd.
    split; [by intros [?|?]|]. split; apply sublist_nil_l.
  - exists names, (local_file_set env (folder rec) names),
      (s3_file_names objs), (Py.strip name).
    split; [by eauto 6|].
    apply try_list_inv in Hlist as (_ & _ & Hu1 & Hd1 & _).
    apply sync_files_inv in Hsync as (_ & Hsub & Hpre & _).
    rewrite upload_calls_cons, delete_calls_cons, upload_calls_app,
      delete_calls_app, Hu1, Hd1. simpl.
    split; [done|by apply prefix_sublist].
Qed.

Lemma sync_record_scans rec s s' t :
  s3_write rec = true →
  sync_record env rec s = (Ok tt, s', t) →
  ∃ out t', t = EvListdir (folder rec) out :: t'.
Proof.
  intros Hw H. destruct (s3_folder_name rec) as [name|] eqn:Hn.
  2: { by rewrite sync_record_unset in H. }
  rewrite (sync_record_run env rec name s Hw Hn) in H.
  destruct (fs_listdir env (folder rec)) as [names|e0]; [|simplify_eq; eauto].
  destruct (try_list env rec (Py.strip name) s) as [[[[[c objs]|]|e1] s1] t1];
    [|simplify_eq; eauto|done].
  destruct (sync_files _ _ _ _ _ _ _ _) as [[r2 s2] t2]. simplify_eq. eauto.
Qed.

(** The loop over the records ends with an exception only for an unset
    folder name, or for a call of an inner loop whose exception the
    handler of that loop does not take, which is then its last event. *)
Lemma sync_loop_raise recs :
  ∀ s e s' t,
    for_each recs (sync_record env) s = (Raise e, s', t) →
    (e = strip_error
     ∧ ∃ rec, rec ∈ recs ∧ s3_write rec = true ∧ s3_folder_name rec = None)
    ∨ (∃ ev, last t = Some ev ∧ escaping e ev).
Proof.
  induction recs as [|rec recs IH]; intros s e s' t H.
  - by rewrite for_each_nil in H.
  - rewrite for_each_cons in H.
    destruct (sync_record env rec s) as [[[[]|e1] s1] t1] eqn:E1.
    + destruct (for_each recs _ s1) as [[r2 s2] t2] eqn:E2. simplify_eq.
      destruct (IH _ _ _ _ E2) as [(-> & rec' & Hin & Hw & Hn)
                                  |(ev & Hlast & Hev)].
      * left. split; [done|]. exists rec'. split; [|done].
        apply elem_of_cons; by right.
      * right. exists ev. split; [|done]. by rewrite last_app, Hlast.
    + simplify_eq.
      destruct (sync_record_raise env _ _ _ _ _ E1)
        as [(Hw & Hn & -> & _)|?]; [|by right].
      left. split; [done|]. exists rec. split; [|done].
      apply elem_of_cons; by left.
Qed.

Lemma sync_loop_scans recs :
  ∀ s s' t,
    for_each recs (sync_record env) s = (Ok tt, s', t) →
    ∀ rec, rec ∈ recs → s3_write rec = true →
      ∃ out, EvListdir (folder rec) out ∈ t.
Proof.
  induction recs as [|rec0 recs IH]; intros s s' t H rec Hin Hw.
  - by apply elem_of_nil in Hin.
  - rewrite for_each_cons in H.
    destruct (sync_record env rec0 s) as [[[[]|e1] s1] t1] eqn:E1; [|done].
    destruct (for_each recs _ s1) as [[r2 s2] t2] eqn:E2. simplify_eq.
    apply elem_of_cons in Hin as [->|Hin].
    + destruct (sync_record_scans _ _ _ _ Hw E1) as (out & t' & ->).
      exists out. apply elem_of_app; left. apply elem_of_cons; by left.
    + destruct (IH _ _ _ E2 rec Hin Hw) as [out Hout].
      exists out. apply elem_of_app; by right.
Qed.

Lemma escaping_not_handled e ev t :
  ev ∈ t → escaping e ev → ¬ handled_failures t.
Proof.
  intros Hin Hesc Hall.
  unfold handled_failures in Hall. rewrite Forall_forall in Hall.
  specialize (Hall ev Hin).
  destruct ev as [| ? ? ? [e'|] | | ? ? ? [e'|] | ? ? [e'|] |];
    simpl in Hesc; try done; destruct Hesc as [-> Hl]; by apply Hall.
Qed.

End Phases.

(** ** What a finished loop has logged *)

Ltac in_trace := simpl; rewrite ?elem_of_app, ?elem_of_cons; auto 10.

Section Logged.

Context (env : Env).

Lemma upload_missing_logged rec folder_path s3_folder n s s' t :
  upload_missing env rec folder_path s3_folder n s = (Ok tt, s', t) →
  (EvUploadFile (Py.os_path_join folder_path n) (s3_bucket_name rec)
     (s3_folder +:+ "/" +:+ n) None ∈ t
   ∧ EvLog INFO ("Uploaded file to S3: " +:+ s3_folder +:+ "/" +:+ n) ∈ t)
  ∨ (∃ e, isinstance e UserError = true
          ∧ EvLog ERROR ("Failed to upload file " +:+ n +:+ " to S3: "
                         +:+ str e) ∈ t).
Proof.
  unfold upload_missing, try_except, bind. intros H.
  destruct (upload_to_s3 _ _ _ _ _ _ _ _) as [[r1 s1] t1] eqn:E1.
  apply upload_to_s3_cases in E1
    as [(-> & -> & _)|(e0 & calls & Hcalls & _ & Hconv)].
  - simpl in H. simplify_eq. left. split; in_trace.
  - right. destruct (converted e0).
    + destruct Hconv as [-> ->]. simpl in H. simplify_eq.
      exists (upload_error e0). split; [done|]. in_trace.
    + destruct Hconv as [-> ->]. simpl in H.
      destruct (isinstance e0 UserError) eqn:Hu; simplify_eq/=.
      exists e0. split; [done|]. in_trace.
Qed.

Lemma delete_extra_logged rec c s3_folder n s s' t :
  delete_extra rec c s3_folder n s = (Ok tt, s', t) →
  (EvDeleteObject (s3_bucket_name rec) (s3_folder +:+ "/" +:+ n) None ∈ t
   ∧ EvLog INFO ("Deleted file from S3: " +:+ s3_folder +:+ "/" +:+ n) ∈ t)
  ∨ (∃ e, isinstance e ClientError = true
          ∧ EvDeleteObject (s3_bucket_name rec) (s3_folder +:+ "/" +:+ n)
              (Some e) ∈ t
          ∧ EvLog ERROR ("Failed to delete file "
                         +:+ (s3_folder +:+ "/" +:+ n)
                         +:+ " from S3: " +:+ str e) ∈ t).
Proof.
  unfold delete_extra, try_except, bind. intros H.
  destruct (delete_object _ _ _ _) as [[r1 s1] t1] eqn:E1.
  apply delete_object_inv in E1 as (_ & -> & _).
  destruct r1 as [[]|e]; simpl in H.
  - simplify_eq. left. split; in_trace.
  - destruct (isinstance e ClientError) eqn:Hc; simplify_eq/=.
    right. exists e. split; [done|]. split; in_trace.
Qed.

(** A loop that comes to its end has run every one of its turns. *)
Lemma for_each_turns {A} (body : A → M unit) (l : list A) :
  ∀ s s' t, for_each l body s = (Ok tt, s', t) →
    ∀ x, x ∈ l → ∃ s1 s2 t1, body x s1 = (Ok tt, s2, t1) ∧ t1 `sublist_of` t.
Proof.
  induction l as [|y l IH]; intros s s' t H x Hin.
  - by apply elem_of_nil in Hin.
  - rewrite for_each_cons in H.
    destruct (body y s) as [[[[]|e1] s1] t1] eqn:E1; [|done].
    destruct (for_each l body s1) as [[r2 s2] t2] eqn:E2. simplify_eq.
    apply elem_of_cons in Hin as [->|Hin].
    + exists s, s1, t1. split; [done|]. by apply sublist_inserts_r.
    + destruct (IH _ _ _ E2 x Hin) as (sa & sb & ta & Hrun & Hsub).
      exists sa, sb, ta. split; [done|]. by apply sublist_inserts_l.
Qed.

End Logged.

(** ** Further properties of the methods *)

Section Extras.

Context (env : Env).


(** X2.  When the inherited method returns and [schedule_backup] then
    raises, the exception is the [AttributeError] of an enabled record
    without folder name, or it was raised by the last call of the run, and
    that call is a [boto3.client] or [upload_file] whose exception is
    neither a [BotoCoreError] nor a [UserError], or a [delete_object]
    whose exception is not a [ClientError].  Nothing else leaves the
    loop. *)
Theorem schedule_backup_raises_only (s s0 s' : State) (t0 t : list event)
    (e : exn) :
  super_schedule_backup env s = (Ok tt, s0, t0) →
  schedule_backup env s = (Raise e, s', t) →
  (e = strip_error
   ∧ ∃ rec, rec ∈ records s0 ∧ s3_write rec = true
            ∧ s3_folder_name rec = None)
  ∨ (∃ ev, last t = Some ev
       ∧ match ev with
         | EvClient _ _ _ (Some e') | EvUploadFile _ _ _ (Some e') =>
             e' = e ∧ isinstance e BotoCoreError = false
             ∧ isinstance e UserError = false
         | EvDeleteObject _ _ (Some e') =>
             e' = e ∧ isinstance e ClientError = false
         | _ => False
         end).
Proof.
  intros Hsuper H.
  unfold schedule_backup, bind, search_all in H. rewrite Hsuper in H.
  simpl in H.
  destruct (for_each (records s0) (sync_record env) s0)
    as [[r1 s1] t1] eqn:E1.
  simplify_eq.
  apply sync_loop_raise in E1 as [?|(ev & Hlast & Hev)]; [by left|].
  right. exists ev. split; [by rewrite last_app, Hlast|].
  destruct ev as [| ? ? ? [e'|] | | ? ? ? [e'|] | ? ? [e'|] |];
    simpl in Hev; try done; destruct Hev as [-> Hl]; by repeat split.
Qed.

(** X3.  When every enabled record has a folder name and every failure of
    the run is one the handlers of the inner loops are written for (a
    [BotoCoreError] or [UserError] from [boto3.client] and [upload_file],
    a [ClientError] from [delete_object]), the loop over the records comes
    to its end, and the folder of every enabled record has been
    scanned. *)
Theorem handled_failures_stay_inside (recs : list db_backup) (s s' : State)
    (r : result unit) (t : list event) :
  (∀ rec, rec ∈ recs → s3_write rec = true → s3_folder_name rec ≠ None) →
  for_each recs (sync_record env) s = (r, s', t) →
  handled_failures t →
  r = Ok tt
  ∧ ∀ rec, rec ∈ recs → s3_write rec = true →
      ∃ out, EvListdir (folder rec) out ∈ t.
Proof.
  intros Hnamed H Hhandled.
  assert (r = Ok tt) as ->.
  { destruct r as [[]|e]; [done|]. exfalso.
    apply sync_loop_raise in H as [(_ & rec & Hin & Hw & Hn)
                                  |(ev & Hlast & Hev)].
    - by apply (Hnamed rec Hin Hw).
    - apply last_Some_elem_of in Hlast.
      by apply (escaping_not_handled e ev t). }
  split; [done|]. by apply (sync_loop_scans env recs s s' t).
Qed.

(** X4.  When building the client or listing the bucket raises, whatever
    the exception, the cycle of the record ends there: the failure is
    logged with the bucket name and the text of the exception, no upload
    and no delete is made, the buckets are as they were, and the loop goes
    on with the records that follow. *)
Theorem listing_failure_skips_record (rec : db_backup) (rest : list db_backup)
    (name : string) (names : list string) (e : exn) (s s1 : State)
    (t0 : list event) :
  s3_write rec = true →
  s3_folder_name rec = Some name →
  fs_listdir env (folder rec) = Ok names →
  connect_and_list env rec (Py.strip name) s = (Raise e, s1, t0) →
  let t := EvListdir (folder rec) None
             :: t0 ++ [EvLog ERROR (list_error_line rec e)] in
  sync_record env rec s = (Ok tt, s1, t)
  ∧ store s1 = store s
  ∧ upload_calls t = [] ∧ delete_calls t = []
  ∧ for_each (rec :: rest) (sync_record env) s
      = let '(r, s', t') := for_each rest (sync_record env) s1 in
        (r, s', t ++ t').
Proof.
  intros Hw Hn Hls Hlist t.
  assert (try_list env rec (Py.strip name) s
          = (Ok None, s1, t0 ++ [EvLog ERROR (list_error_line rec e)]))
    as Htry.
  { unfold try_list, try_except. fold (connect_and_list env rec (Py.strip name)).
    rewrite Hlist, isinstance_Exception. reflexivity. }
  assert (sync_record env rec s = (Ok tt, s1, t)) as Hrun.
  { by rewrite (sync_record_run env rec name s Hw Hn), Hls, Htry. }
  apply try_list_inv in Htry as (_ & Hs1 & Hu & Hd & _).
  split; [done|]. split; [done|].
  unfold t. rewrite upload_calls_cons, delete_calls_cons, Hu, Hd.
  do 2 (split; [done|]).
  by rewrite for_each_cons, Hrun.
Qed.

(** X5.  A record whose [s3_write] is off takes no part in the run, even
    without a folder name: the loop over the records behaves as if the
    record were not in the list. *)
Theorem disabled_record_is_skipped (pre post : list db_backup)
    (rec : db_backup) (s : State) :
  s3_write rec = false →
  for_each (pre ++ rec :: post) (sync_record env) s
  = for_each (pre ++ post) (sync_record env) s.
Proof.
  intros Hw. rewrite !for_each_app.
  destruct (for_each pre (sync_record env) s) as [[[[]|e] s1] t1]; [|done].
  rewrite for_each_cons, (sync_record_disabled env rec s1 Hw).
  by destruct (for_each post (sync_record env) s1) as [[??]?].
Qed.

(** X6.  Whatever fails, the cycle of a record creates and removes no
    bucket, and changes the keys of a bucket only if it is the bucket of
    the record and the key starts with ["{prefix}/"], the prefix being the
    stripped folder name of the record: the keys of other buckets and of
    other prefixes are left as they are. *)
Theorem cycle_changes_only_its_prefix (rec : db_backup) (s s' : State)
    (r : result unit) (t : list event) :
  sync_record env rec s = (r, s', t) →
  dom (store s') = dom (store s)
  ∧ ∀ b k,
      (k ∈ keys_of s' b ↔ k ∈ keys_of s b)
      ∨ (s3_bucket_name rec = Some b
         ∧ ∃ name, s3_folder_name rec = Some name
                   ∧ Py.startswith (Py.strip name +:+ "/") k = true).
Proof.
  intros [(_ & _ & Hs & _)
         |(name & names & c & objs & s1 & t1 & t2 & Hw & Hn & Hls & Hlist
           & Hsync & ->)]%sync_record_phases.
  - split; [by rewrite Hs|]. intros b k. left.
    by rewrite (keys_of_store s s' b Hs).
  - apply try_list_inv in Hlist as (_ & Hs1 & _).
    apply sync_files_changes in Hsync as [Hch _].
    apply (changes_within_store_l _ _ _ s) in Hch; [|done].
    destruct Hch as [Hdom Hch]. split; [done|].
    intros b k. destruct (Hch b k) as [Ha Hd].
    destruct (decide (k ∈ keys_of s' b)) as [Hk'|Hk'];
      destruct (decide (k ∈ keys_of s b)) as [Hk|Hk]; [by left| | |by left].
    + destruct (Ha Hk') as [?|[Hb (n & -> & _)%elem_of_map]]; [done|].
      right. split; [done|]. exists name. split; [done|].
      apply startswith_s3_key_of.
    + destruct (Hd Hk) as [?|[Hb (n & -> & _)%elem_of_map]]; [done|].
      right. split; [done|]. exists name. split; [done|].
      apply startswith_s3_key_of.
Qed.

(** X7.  Whatever fails, a cycle does not remove the copy of a file that
    is in the local folder: a key ["{prefix}/{name}"] for a scanned file
    name that is in a bucket before the cycle is in it afterwards. *)
Theorem local_copies_are_kept (rec : db_backup) (name : string)
    (names : list string) (n b : string) (s s' : State) (r : result unit)
    (t : list event) :
  s3_folder_name rec = Some name →
  fs_listdir env (folder rec) = Ok names →
  n ∈ local_file_set env (folder rec) names →
  sync_record env rec s = (r, s', t) →
  s3_key_of (Py.strip name) n ∈ keys_of s b →
  s3_key_of (Py.strip name) n ∈ keys_of s' b.
Proof.
  intros Hn Hls HnL
    [(_ & _ & Hs & _)
    |(name' & names' & c & objs & s1 & t1 & t2 & Hw & Hn' & Hls' & Hlist
      & Hsync & ->)]%sync_record_phases Hk.
  - by rewrite (keys_of_store s s' b Hs).
  - assert (name' = name) as -> by congruence.
    assert (names' = names) as -> by congruence.
    apply try_list_inv in Hlist as (_ & Hs1 & _).
    apply sync_files_changes in Hsync as [Hch _].
    apply (changes_within_store_l _ _ _ s) in Hch; [|done].
    destruct Hch as [_ Hch]. destruct (Hch b (s3_key_of (Py.strip name) n))
      as [_ Hd].
    destruct (Hd Hk) as [?|[_ (m & Heq & Hm)%elem_of_map]]; [done|].
    apply s3_key_of_inj in Heq. subst m.
    by apply elem_of_difference in Hm as [_ ?].
Qed.

(** X8.  When the entries of the folder are file names, every
    [upload_file] call of a cycle, whatever fails, sends a regular file
    of the folder that the scan has seen, to the bucket of the record, at
    the key ["{prefix}/{name}"] of its name; and the name the loop body
    would compute for that key is that file name. *)
Theorem uploads_are_scanned_files (rec : db_backup) (names : list string)
    (s s' : State) (r : result unit) (t : list event)
    (path key : string) (bucket : option string) :
  fs_listdir env (folder rec) = Ok names →
  entries_are_names env (folder rec) →
  sync_record env rec s = (r, s', t) →
  (path, bucket, key) ∈ upload_calls t →
  fs_isfile env path = true
  ∧ bucket = s3_bucket_name rec
  ∧ ∃ name n, s3_folder_name rec = Some name
      ∧ n ∈ names
      ∧ path = Py.os_path_join (folder rec) n
      ∧ key = Py.strip name +:+ "/" +:+ n
      ∧ key_name {| Key := key |} = n.
Proof.
  intros Hls Hwf H Hin.
  destruct (sync_record_calls env _ _ _ _ _ H)
    as (names' & L & R & prefix & Hfacts & Hsub & _).
  destruct Hfacts as (Hls' & -> & name & Hn & ->).
  { left. intros Hnil. rewrite Hnil in Hin. by apply elem_of_nil in Hin. }
  assert (names' = names) as -> by congruence.
  apply (elem_of_sublist _ _ _ Hin) in Hsub.
  apply list_elem_of_fmap in Hsub as (n & Heq & Hn').
  apply elem_of_set_iter, elem_of_difference in Hn' as [HnL _].
  unfold upload_of in Heq. simplify_eq.
  pose proof HnL as (f & Hf & Hfin & Hfile)%local_file_set_elem.
  destruct (Hwf names f Hls Hfin) as [_ Hsep].
  unfold Py.os_path_basename in Hf. rewrite after_rfind_no_sep in Hf by done.
  subst f. split; [done|]. split; [done|].
  exists name, n. do 4 (split; [done|]).
  by apply key_name_s3_key_of.
Qed.

(** X9.  Whatever fails, a cycle uploads no file twice, deletes no key
    twice, and never deletes a key it uploads. *)
Theorem no_key_is_handled_twice (rec : db_backup) (s s' : State)
    (r : result unit) (t : list event) :
  sync_record env rec s = (r, s', t) →
  NoDup (upload_calls t) ∧ NoDup (delete_calls t)
  ∧ ∀ path bucket bucket' key,
      (path, bucket, key) ∈ upload_calls t →
      (bucket', key) ∉ delete_calls t.
Proof.
  intros H.
  destruct (sync_record_calls env _ _ _ _ _ H)
    as (names & L & R & prefix & _ & Hsubu & Hsubd).
  assert (∀ X : gset string, NoDup (set_iter env X)) as Hnd.
  { intros X. rewrite (set_iter_perm env X). apply NoDup_elements. }
  assert (Inj (=) (=) (upload_of rec (folder rec) prefix)) as Hinju.
  { intros n m Heq. unfold upload_of in Heq. injection Heq as _ Heq.
    by apply (s3_key_of_inj prefix). }
  assert (Inj (=) (=) (delete_of rec prefix)) as Hinjd.
  { intros n m Heq. unfold delete_of in Heq. injection Heq as Heq.
    by apply (s3_key_of_inj prefix). }
  split; [|split].
  - eapply sublist_NoDup; [|exact Hsubu]. by apply (NoDup_fmap_2 _).
  - eapply sublist_NoDup; [|exact Hsubd]. by apply (NoDup_fmap_2 _).
  - intros path bucket bucket' key Hu Hd.
    apply (elem_of_sublist _ _ _ Hu) in Hsubu.
    apply (elem_of_sublist _ _ _ Hd) in Hsubd.
    apply list_elem_of_fmap in Hsubu as (n & Heqn & Hn).
    apply list_elem_of_fmap in Hsubd as (m & Heqm & Hm).
    unfold upload_of in Heqn. unfold delete_of in Heqm.
    injection Heqn as _ _ Hkn. injection Heqm as _ Hkm.
    assert (n = m) as ->.
    { apply (s3_key_of_inj prefix). by rewrite <- Hkn, <- Hkm. }
    apply elem_of_set_iter in Hn, Hm. set_solver.
Qed.

(** X10.  A cycle builds one client for the listing and one more for
    every upload it starts, and none for its deletes, which go through the
    client of the listing: at most one plus the number of names to upload,
    and exactly that many when the cycle comes to its end. *)
Theorem one_client_per_upload (rec : db_backup) (name : string)
    (names : list string) (c : s3_client) (objs : list s3_object)
    (s s1 s' : State) (t1 t : list event) (r : result unit) :
  s3_write rec = true →
  s3_folder_name rec = Some name →
  fs_listdir env (folder rec) = Ok names →
  try_list env rec (Py.strip name) s = (Ok (Some (c, objs)), s1, t1) →
  sync_record env rec s = (r, s', t) →
  let to_upload :=
    local_file_set env (folder rec) names ∖ s3_file_names objs in
  (client_calls t ≤ 1 + size to_upload)%nat
  ∧ (r = Ok tt → client_calls t = 1 + size to_upload).
Proof.
  intros Hw Hn Hls Hlist Hrun to_upload.
  rewrite (sync_record_run env rec name s Hw Hn), Hls, Hlist in Hrun.
  destruct (sync_files _ _ _ _ _ _ _ _) as [[r2 s2] t2] eqn:E2.
  simplify_eq.
  apply try_list_inv in Hlist as (_ & _ & _ & _ & -> & _).
  apply sync_files_changes in E2 as (_ & Hle & Heq).
  rewrite client_calls_cons, client_calls_app.
  change (client_calls [EvListdir (folder rec) None]) with 0.
  change (client_calls
            [EvClient (s3_access_key rec) (s3_secret_key rec) (s3_region rec)
               None;
             EvListObjects (s3_bucket_name rec)
               (Some (Py.strip name +:+ "/")) None]) with 1.
  fold to_upload in Hle, Heq. split; [lia|].
  intros ->. by rewrite Heq.
Qed.

(** X11.  Whatever fails, every [delete_object] call of a cycle goes to
    the bucket of the record, at a key ["{prefix}/{name}"] one level under
    the prefix: the name has no ['/'], is not the name of a local file,
    and is the last segment of a key that was in the bucket under
    ["{prefix}/"] before the cycle. *)
Theorem deletes_are_listed_names (rec : db_backup) (s s' : State)
    (r : result unit) (t : list event) (bucket : option string)
    (key : string) :
  sync_record env rec s = (r, s', t) →
  (bucket, key) ∈ delete_calls t →
  bucket = s3_bucket_name rec
  ∧ ∃ name names n b k,
      s3_folder_name rec = Some name
      ∧ fs_listdir env (folder rec) = Ok names
      ∧ key = Py.strip name +:+ "/" +:+ n
      ∧ Py.contains "/" n = false
      ∧ (n ∉ local_file_set env (folder rec) names)
      ∧ bucket = Some b
      ∧ k ∈ keys_of s b
      ∧ Py.startswith (Py.strip name +:+ "/") k = true
      ∧ key_name {| Key := k |} = n.
Proof.
  intros [(_ & Hd & _)
         |(name & names & c & objs & s1 & t1 & t2 & Hw & Hn & Hls & Hlist
           & Hsync & ->)]%sync_record_phases Hin.
  { rewrite Hd in Hin. by apply elem_of_nil in Hin. }
  apply try_list_inv in Hlist as (_ & _ & _ & Hd1 & Hcase).
  destruct Hcase as (_ & b & keys & Hb & Hk & ->).
  apply sync_files_inv in Hsync as (_ & _ & Hpre & _).
  rewrite delete_calls_cons, delete_calls_app, Hd1 in Hin. simpl in Hin.
  apply prefix_sublist in Hpre.
  apply (elem_of_sublist _ _ _ Hin) in Hpre.
  apply list_elem_of_fmap in Hpre as (n & Heq & Hn').
  apply elem_of_set_iter, elem_of_difference in Hn' as [HnR HnL].
  unfold delete_of in Heq. injection Heq as -> ->.
  split; [done|].
  unfold s3_file_names in HnR.
  apply elem_of_list_to_set, list_elem_of_fmap in HnR as (obj & -> & Hobj).
  apply list_elem_of_fmap in Hobj as (k & -> & Hk').
  apply elem_of_take in Hk' as (i & Hk' & _).
  apply list_elem_of_lookup_2, matching_keys_elem, keys_under_elem in Hk'
    as [Hkin Hpre'].
  exists name, names, (key_name {| Key := k |}), b, k.
  do 3 (split; [done|]). split.
  { rewrite key_name_after_rfind. apply contains_after_rfind. }
  do 2 (split; [done|]). split.
  { unfold keys_of. by rewrite Hk. }
  done.
Qed.

(** X13.  A cycle that comes to its end has taken every planned file in
    turn.  For every local name the listing did not show, [upload_file]
    has returned and the upload is logged, or the failure is logged with
    the text of a [UserError]; for every listed name that is not local,
    [delete_object] has been called on ["{prefix}/{name}"], and its
    success, or its [ClientError], is logged. *)
Theorem finished_cycle_reaches_every_file (rec : db_backup) (name : string)
    (names : list string) (c : s3_client) (objs : list s3_object)
    (s s1 s' : State) (t1 t : list event) :
  s3_write rec = true →
  s3_folder_name rec = Some name →
  fs_listdir env (folder rec) = Ok names →
  try_list env rec (Py.strip name) s = (Ok (Some (c, objs)), s1, t1) →
  sync_record env rec s = (Ok tt, s', t) →
  let local_set := local_file_set env (folder rec) names in
  let remote_set := s3_file_names objs in
  let key n := Py.strip name +:+ "/" +:+ n in
  (∀ n, n ∈ local_set ∖ remote_set →
     (EvUploadFile (Py.os_path_join (folder rec) n) (s3_bucket_name rec)
        (key n) None ∈ t
      ∧ EvLog INFO ("Uploaded file to S3: " +:+ key n) ∈ t)
     ∨ (∃ e, isinstance e UserError = true
             ∧ EvLog ERROR ("Failed to upload file " +:+ n +:+ " to S3: "
                            +:+ str e) ∈ t))
  ∧ (∀ n, n ∈ remote_set ∖ local_set →
       (EvDeleteObject (s3_bucket_name rec) (key n) None ∈ t
        ∧ EvLog INFO ("Deleted file from S3: " +:+ key n) ∈ t)
       ∨ (∃ e, isinstance e ClientError = true
               ∧ EvDeleteObject (s3_bucket_name rec) (key n) (Some e) ∈ t
               ∧ EvLog ERROR ("Failed to delete file " +:+ key n
                              +:+ " from S3: " +:+ str e) ∈ t)).
Proof.
  intros Hw Hn Hls Hlist Hrun local_set remote_set key.
  rewrite (sync_record_run env rec name s Hw Hn), Hls, Hlist in Hrun.
  unfold sync_files, bind in Hrun.
  fold local_set remote_set in Hrun.
  destruct (for_each (set_iter env (local_set ∖ remote_set)) _ s1)
    as [[[[]|e2] s2] t2] eqn:E2; [|done].
  destruct (for_each (set_iter env (remote_set ∖ local_set)) _ s2)
    as [[r3 s3] t3] eqn:E3.
  simplify_eq.
  assert (∀ ev t0, t0 `sublist_of` t2 → ev ∈ t0 →
            ev ∈ EvListdir (folder rec) None :: t1 ++ t2 ++ t3) as Hup.
  { intros ev t0 Hsub Hin. apply (elem_of_sublist _ _ _ Hin) in Hsub.
    rewrite elem_of_cons, !elem_of_app. auto. }
  assert (∀ ev t0, t0 `sublist_of` t3 → ev ∈ t0 →
            ev ∈ EvListdir (folder rec) None :: t1 ++ t2 ++ t3) as Hdel.
  { intros ev t0 Hsub Hin. apply (elem_of_sublist _ _ _ Hin) in Hsub.
    rewrite elem_of_cons, !elem_of_app. auto. }
  split.
  - intros n Hin. apply (elem_of_set_iter env) in Hin.
    destruct (for_each_turns _ _ _ _ _ E2 n Hin)
      as (sa & sb & ta & Hturn & Hsub).
    apply upload_missing_logged in Hturn as [[Hu Hl]|(e & He & Hl)].
    + left. split; by eapply Hup.
    + right. exists e. split; [done|]. by eapply Hup.
  - intros n Hin. apply (elem_of_set_iter env) in Hin.
    destruct (for_each_turns _ _ _ _ _ E3 n Hin)
      as (sa & sb & ta & Hturn & Hsub).
    apply delete_extra_logged in Hturn as [[Hd Hl]|(e & He & Hd & Hl)].
    + left. split; by eapply Hdel.
    + right. exists e. split; [done|]. split; by eapply Hdel.
Qed.

End Extras.

(** ** The further properties on the concrete installation *)


(** The network is down for the upload: the caller gets a [UserError]
    with the text of the exception, after the error line. *)
Example upload_to_s3_offline :
  upload_to_s3 Examples.env "/odoo/backups/a.sql" (Some "bk") "prod/a.sql"
    (Some "AK") (Some "SK") (Some "eu-west-1")
    (set_faults [None; Some Examples.offline] Examples.st)
  = (Raise (Exn UserError
              "Failed to upload backup to S3: Could not connect to the endpoint URL: https://bk.s3.eu-west-1.amazonaws.com/"),
     Examples.st,
     [EvClient (Some "AK") (Some "SK") (Some "eu-west-1") None;
      EvUploadFile "/odoo/backups/a.sql" (Some "bk") "prod/a.sql"
        (Some Examples.offline);
      EvLog ERROR
        "Failed to upload backup to S3: Could not connect to the endpoint URL: https://bk.s3.eu-west-1.amazonaws.com/"]).
Proof. vm_compute. reflexivity. Qed.

Lemma schedule_backup_raises_witness :
  let run := schedule_backup Examples.env Examples.st_refused in
  super_schedule_backup Examples.env Examples.st_refused
    = (Ok tt, Examples.st_refused, [])
  ∧ schedule_backup Examples.env Examples.st_refused
      = (Raise Examples.refused, run.1.2, run.2)
  ∧ ((Examples.refused = strip_error
      ∧ ∃ rec, rec ∈ records Examples.st_refused ∧ s3_write rec = true
               ∧ s3_folder_name rec = None)
     ∨ (∃ ev, last run.2 = Some ev
          ∧ match ev with
            | EvClient _ _ _ (Some e') | EvUploadFile _ _ _ (Some e') =>
                e' = Examples.refused
                ∧ isinstance Examples.refused BotoCoreError = false
                ∧ isinstance Examples.refused UserError = false
            | EvDeleteObject _ _ (Some e') =>
                e' = Examples.refused
                ∧ isinstance Examples.refused ClientError = false
            | _ => False
            end)).
Proof.
  intros run. split; [reflexivity|].
  assert (schedule_backup Examples.env Examples.st_refused
          = (Raise Examples.refused, run.1.2, run.2)) as Hrun
    by (vm_compute; reflexivity).
  split; [exact Hrun|].
  apply (schedule_backup_raises_only Examples.env Examples.st_refused
           Examples.st_refused run.1.2 [] run.2 Examples.refused);
    [reflexivity|exact Hrun].
Defined.

Lemma handled_failures_witness :
  let run := for_each [Examples.target] (sync_record Examples.env)
               MoreExamples.st_offline_upload in
  (∀ rec, rec ∈ [Examples.target] → s3_write rec = true →
          s3_folder_name rec ≠ None)
  ∧ for_each [Examples.target] (sync_record Examples.env)
      MoreExamples.st_offline_upload
    = (run.1.1, run.1.2, run.2)
  ∧ handled_failures run.2
  ∧ (run.1.1 = Ok tt
     ∧ ∀ rec, rec ∈ [Examples.target] → s3_write rec = true →
         ∃ out, EvListdir (folder rec) out ∈ run.2).
Proof.
  intros run.
  assert (∀ rec, rec ∈ [Examples.target] → s3_write rec = true →
                 s3_folder_name rec ≠ None) as Hnamed.
  { intros rec Hin%list_elem_of_singleton _. by subst rec. }
  assert (handled_failures run.2) as Hhandled by by_computation.
  split; [exact Hnamed|]. split; [reflexivity|]. split; [exact Hhandled|].
  apply (handled_failures_stay_inside Examples.env [Examples.target]
           MoreExamples.st_offline_upload run.1.2 run.1.1 run.2);
    [exact Hnamed|reflexivity|exact Hhandled].
Defined.

(** The run in which the network is down for the upload of [a.sql]: the
    failure is logged twice, and [c.sql] is deleted all the same. *)
Example offline_upload_run :
  for_each [Examples.target] (sync_record Examples.env)
    MoreExamples.st_offline_upload
  = (Ok tt,
     Examples.state_of [Examples.target] {[ "prod/b.sql" ]} [],
     [EvListdir "/odoo/backups" None;
      EvClient (Some "AK") (Some "SK") (Some "eu-west-1") None;
      EvListObjects (Some "bk") (Some "prod/") None;
      EvClient (Some "AK") (Some "SK") (Some "eu-west-1") None;
      EvUploadFile "/odoo/backups/a.sql" (Some "bk") "prod/a.sql"
        (Some Examples.offline);
      EvLog ERROR
        "Failed to upload backup to S3: Could not connect to the endpoint URL: https://bk.s3.eu-west-1.amazonaws.com/";
      EvLog ERROR
        "Failed to upload file a.sql to S3: Failed to upload backup to S3: Could not connect to the endpoint URL: https://bk.s3.eu-west-1.amazonaws.com/";
      EvDeleteObject (Some "bk") "prod/c.sql" None;
      EvLog INFO "Deleted file from S3: prod/c.sql"]).
Proof. vm_compute. reflexivity. Qed.

Lemma listing_failure_witness :
  let run := connect_and_list Examples.env Examples.target "prod"
               Examples.st_denied in
  let t := EvListdir "/odoo/backups" None
             :: run.2 ++ [EvLog ERROR
                            (list_error_line Examples.target
                               Examples.denied)] in
  s3_write Examples.target = true
  ∧ s3_folder_name Examples.target = Some " prod "
  ∧ fs_listdir Examples.env (folder Examples.target)
      = Ok ["a.sql"; "b.sql"; "filestore"]
  ∧ connect_and_list Examples.env Examples.target "prod" Examples.st_denied
      = (Raise Examples.denied, run.1.2, run.2)
  ∧ (sync_record Examples.env Examples.target Examples.st_denied
       = (Ok tt, run.1.2, t)
     ∧ store run.1.2 = store Examples.st_denied
     ∧ upload_calls t = [] ∧ delete_calls t = []
     ∧ for_each [Examples.target; Examples.lost]
         (sync_record Examples.env) Examples.st_denied
       = let '(r, s', t') :=
           for_each [Examples.lost] (sync_record Examples.env) run.1.2 in
         (r, s', t ++ t')).
Proof.
  intros run t. do 3 (split; [reflexivity|]).
  assert (connect_and_list Examples.env Examples.target "prod"
            Examples.st_denied
          = (Raise Examples.denied, run.1.2, run.2)) as Hrun
    by (vm_compute; reflexivity).
  split; [exact Hrun|].
  apply (listing_failure_skips_record Examples.env Examples.target
           [Examples.lost] " prod " ["a.sql"; "b.sql"; "filestore"]
           Examples.denied Examples.st_denied run.1.2 run.2);
    [reflexivity|reflexivity|reflexivity|exact Hrun].
Defined.

Lemma disabled_record_witness :
  s3_write MoreExamples.disabled = false
  ∧ for_each ([Examples.lost] ++ MoreExamples.disabled :: [Examples.target])
      (sync_record Examples.env) Examples.st
    = for_each ([Examples.lost] ++ [Examples.target])
        (sync_record Examples.env) Examples.st.
Proof.
  split; [reflexivity|].
  apply (disabled_record_is_skipped Examples.env [Examples.lost]
           [Examples.target] MoreExamples.disabled Examples.st).
  reflexivity.
Defined.

Lemma cycle_changes_witness :
  let run := sync_record Examples.env Examples.target Examples.st in
  sync_record Examples.env Examples.target Examples.st
    = (run.1.1, run.1.2, run.2)
  ∧ (dom (store run.1.2) = dom (store Examples.st)
     ∧ ∀ b k,
         (k ∈ keys_of run.1.2 b ↔ k ∈ keys_of Examples.st b)
         ∨ (s3_bucket_name Examples.target = Some b
            ∧ ∃ name, s3_folder_name Examples.target = Some name
                      ∧ Py.startswith (Py.strip name +:+ "/") k = true)).
Proof.
  intros run. split; [reflexivity|].
  apply (cycle_changes_only_its_prefix Examples.env Examples.target
           Examples.st run.1.2 run.1.1 run.2).
  reflexivity.
Defined.

Lemma local_copies_witness :
  let run := sync_record Examples.env Examples.target Examples.st in
  s3_folder_name Examples.target = Some " prod "
  ∧ fs_listdir Examples.env (folder Examples.target)
      = Ok ["a.sql"; "b.sql"; "filestore"]
  ∧ "b.sql" ∈ local_file_set Examples.env (folder Examples.target)
                ["a.sql"; "b.sql"; "filestore"]
  ∧ sync_record Examples.env Examples.target Examples.st
      = (run.1.1, run.1.2, run.2)
  ∧ s3_key_of (Py.strip " prod ") "b.sql" ∈ keys_of Examples.st "bk"
  ∧ s3_key_of (Py.strip " prod ") "b.sql" ∈ keys_of run.1.2 "bk".
Proof.
  intros run.
  assert ("b.sql" ∈ local_file_set Examples.env (folder Examples.target)
                      ["a.sql"; "b.sql"; "filestore"]) as Hlocal
    by by_computation.
  assert (s3_key_of (Py.strip " prod ") "b.sql" ∈ keys_of Examples.st "bk")
    as Hkey by by_computation.
  do 2 (split; [reflexivity|]). split; [exact Hlocal|].
  split; [reflexivity|]. split; [exact Hkey|].
  apply (local_copies_are_kept Examples.env Examples.target " prod "
           ["a.sql"; "b.sql"; "filestore"] "b.sql" "bk" Examples.st
           run.1.2 run.1.1 run.2);
    [reflexivity|reflexivity|exact Hlocal|reflexivity|exact Hkey].
Defined.

Lemma scanned_uploads_witness :
  let run := sync_record Examples.env Examples.target
               MoreExamples.st_empty_prefix in
  fs_listdir Examples.env (folder Examples.target)
    = Ok ["a.sql"; "b.sql"; "filestore"]
  ∧ entries_are_names Examples.env (folder Examples.target)
  ∧ sync_record Examples.env Examples.target MoreExamples.st_empty_prefix
      = (run.1.1, run.1.2, run.2)
  ∧ ("/odoo/backups/b.sql", Some "bk", "prod/b.sql") ∈ upload_calls run.2
  ∧ (fs_isfile Examples.env "/odoo/backups/b.sql" = true
     ∧ Some "bk" = s3_bucket_name Examples.target
     ∧ ∃ name n, s3_folder_name Examples.target = Some name
         ∧ n ∈ ["a.sql"; "b.sql"; "filestore"]
         ∧ "/odoo/backups/b.sql"
             = Py.os_path_join (folder Examples.target) n
         ∧ "prod/b.sql" = Py.strip name +:+ "/" +:+ n
         ∧ key_name {| Key := "prod/b.sql" |} = n).
Proof.
  intros run.
  assert (("/odoo/backups/b.sql", Some "bk", "prod/b.sql")
            ∈ upload_calls run.2) as Hcall by by_computation.
  split; [reflexivity|]. split; [exact example_entries_are_names|].
  split; [reflexivity|]. split; [exact Hcall|].
  apply (uploads_are_scanned_files Examples.env Examples.target
           ["a.sql"; "b.sql"; "filestore"] MoreExamples.st_empty_prefix
           run.1.2 run.1.1 run.2 "/odoo/backups/b.sql" "prod/b.sql"
           (Some "bk"));
    [reflexivity|exact example_entries_are_names|reflexivity|exact Hcall].
Defined.

Lemma no_key_twice_witness :
  let run := sync_record Examples.env Examples.target Examples.st in
  sync_record Examples.env Examples.target Examples.st
    = (run.1.1, run.1.2, run.2)
  ∧ (NoDup (upload_calls run.2) ∧ NoDup (delete_calls run.2)
     ∧ ∀ path bucket bucket' key,
         (path, bucket, key) ∈ upload_calls run.2 →
         (bucket', key) ∉ delete_calls run.2).
Proof.
  intros run. split; [reflexivity|].
  apply (no_key_is_handled_twice Examples.env Examples.target Examples.st
           run.1.2 run.1.1 run.2).
  reflexivity.
Defined.

Lemma client_count_witness :
  let run := sync_record Examples.env Examples.target
               MoreExamples.st_empty_prefix in
  let listed := [EvClient (Some "AK") (Some "SK") (Some "eu-west-1") None;
                 EvListObjects (Some "bk") (Some "prod/") None] in
  let to_upload :=
    local_file_set Examples.env "/odoo/backups"
      ["a.sql"; "b.sql"; "filestore"] ∖ s3_file_names [] in
  s3_write Examples.target = true
  ∧ s3_folder_name Examples.target = Some " prod "
  ∧ fs_listdir Examples.env (folder Examples.target)
      = Ok ["a.sql"; "b.sql"; "filestore"]
  ∧ try_list Examples.env Examples.target "prod"
      MoreExamples.st_empty_prefix
      = (Ok (Some (Examples.client, [])), MoreExamples.st_empty_prefix,
         listed)
  ∧ sync_record Examples.env Examples.target MoreExamples.st_empty_prefix
      = (run.1.1, run.1.2, run.2)
  ∧ ((client_calls run.2 ≤ 1 + size to_upload)%nat
     ∧ (run.1.1 = Ok tt → client_calls run.2 = 1 + size to_upload)).
Proof.
  intros run listed to_upload. do 3 (split; [reflexivity|]).
  split; [vm_compute; reflexivity|]. split; [reflexivity|].
  apply (one_client_per_upload Examples.env Examples.target " prod "
           ["a.sql"; "b.sql"; "filestore"] Examples.client []
           MoreExamples.st_empty_prefix MoreExamples.st_empty_prefix
           run.1.2 listed run.2 run.1.1);
    [reflexivity|reflexivity|reflexivity|vm_compute; reflexivity
    |reflexivity].
Defined.

(** The cycle on the empty prefix builds three clients: one for the
    listing and one for each of the two uploads. *)
Example three_clients_for_two_uploads :
  client_calls
    (sync_record Examples.env Examples.target
       MoreExamples.st_empty_prefix).2 = 3.
Proof. vm_compute. reflexivity. Qed.

Lemma listed_deletes_witness :
  let run := sync_record Examples.env Examples.target Examples.st in
  sync_record Examples.env Examples.target Examples.st
    = (run.1.1, run.1.2, run.2)
  ∧ (Some "bk", "prod/c.sql") ∈ delete_calls run.2
  ∧ (Some "bk" = s3_bucket_name Examples.target
     ∧ ∃ name names n b k,
         s3_folder_name Examples.target = Some name
         ∧ fs_listdir Examples.env (folder Examples.target) = Ok names
         ∧ "prod/c.sql" = Py.strip name +:+ "/" +:+ n
         ∧ Py.contains "/" n = false
         ∧ (n ∉ local_file_set Examples.env (folder Examples.target) names)
         ∧ Some "bk" = Some b
         ∧ k ∈ keys_of Examples.st b
         ∧ Py.startswith (Py.strip name +:+ "/") k = true
         ∧ key_name {| Key := k |} = n).
Proof.
  intros run.
  assert ((Some "bk", "prod/c.sql") ∈ delete_calls run.2) as Hcall
    by by_computation.
  split; [reflexivity|]. split; [exact Hcall|].
  apply (deletes_are_listed_names Examples.env Examples.target Examples.st
           run.1.2 run.1.1 run.2 (Some "bk") "prod/c.sql");
    [reflexivity|exact Hcall].
Defined.

Lemma finished_cycle_witness :
  let run := sync_record Examples.env Examples.target Examples.st in
  let listed := [EvClient (Some "AK") (Some "SK") (Some "eu-west-1") None;
                 EvListObjects (Some "bk") (Some "prod/") None] in
  let objs := [{| Key := "prod/b.sql" |}; {| Key := "prod/c.sql" |}] in
  let local_set :=
    local_file_set Examples.env (folder Examples.target)
      ["a.sql"; "b.sql"; "filestore"] in
  let remote_set := s3_file_names objs in
  let key n := Py.strip " prod " +:+ "/" +:+ n in
  s3_write Examples.target = true
  ∧ s3_folder_name Examples.target = Some " prod "
  ∧ fs_listdir Examples.env (folder Examples.target)
      = Ok ["a.sql"; "b.sql"; "filestore"]
  ∧ try_list Examples.env Examples.target "prod" Examples.st
      = (Ok (Some (Examples.client, objs)), Examples.st, listed)
  ∧ sync_record Examples.env Examples.target Examples.st
      = (Ok tt, run.1.2, run.2)
  ∧ ((∀ n, n ∈ local_set ∖ remote_set →
        (EvUploadFile (Py.os_path_join (folder Examples.target) n)
           (s3_bucket_name Examples.target) (key n) None ∈ run.2
         ∧ EvLog INFO ("Uploaded file to S3: " +:+ key n) ∈ run.2)
        ∨ (∃ e, isinstance e UserError = true
                ∧ EvLog ERROR ("Failed to upload file " +:+ n
                               +:+ " to S3: " +:+ str e) ∈ run.2))
     ∧ (∀ n, n ∈ remote_set ∖ local_set →
          (EvDeleteObject (s3_bucket_name Examples.target) (key n) None
             ∈ run.2
           ∧ EvLog INFO ("Deleted file from S3: " +:+ key n) ∈ run.2)
          ∨ (∃ e, isinstance e ClientError = true
                  ∧ EvDeleteObject (s3_bucket_name Examples.target) (key n)
                      (Some e) ∈ run.2
                  ∧ EvLog ERROR ("Failed to delete file " +:+ key n
                                 +:+ " from S3: " +:+ str e) ∈ run.2))).
Proof.
  intros run listed objs local_set remote_set key.
  do 3 (split; [reflexivity|]).
  split; [vm_compute; reflexivity|].
  assert (sync_record Examples.env Examples.target Examples.st
          = (Ok tt, run.1.2, run.2)) as Hrun by (vm_compute; reflexivity).
  split; [exact Hrun|].
  apply (finished_cycle_reaches_every_file Examples.env Examples.target
           " prod " ["a.sql"; "b.sql"; "filestore"] Examples.client objs
           Examples.st Examples.st run.1.2 listed run.2);
    [reflexivity|reflexivity|reflexivity|vm_compute; reflexivity
    |exact Hrun].
Defined.
